(** * Order state machine with hooks: a shallow embedding

    The development follows the three source modules
    - [utils/enums.py]   : [ChoicesEnum], [HooksMixin]
    - [orders/models.py] : [Order], [Order.State], [OrderLog]
    - [orders/hooks.py]  : the hooks registered on [Order.State] members

    Python objects are modelled by explicit state passing: the in-memory
    [Order] instance, the database rows, the log table and the standard
    output are fields of a [World]; raising is an [Outcome]. Keyword
    arguments are a finite map, and binding them in a call is modelled,
    since a key that equals a parameter name already given by position
    makes the call raise. *)

From Stdlib Require Import ZArith String Ascii List Bool Lia.
From Stdlib Require Import Floats.SpecFloat.
From stdpp Require Import base option list gmap strings pretty.

Local Open Scope string_scope.
Local Open Scope Z_scope.
Local Set Warnings "-register-all".

(** ** Python values *)

Module Py.

(** IEEE binary64, the representation of a Python [float]. *)
Definition float_prec : Z := 53.
Definition float_emax : Z := 1024.

(** The values [json.loads] produces; these are the values keyword
    arguments of a transition and entries of [metadata] range over. *)
Inductive PyVal : Type :=
| PyNone
| PyBool (b : bool)
| PyInt (n : Z)
| PyFloat (x : spec_float)
| PyStr (s : string)
| PyList (l : list PyVal)
| PyDict (d : list (string * PyVal)).

(** A finite [decimal.Decimal]: [dec_coeff * 10 ^ dec_exp]. *)
Record Decimal := mkDecimal { dec_coeff : Z; dec_exp : Z }.

(** What the [price] attribute of an instance can hold: a [Decimal] when
    the instance comes from the database or from a form, an [int] or a
    [float] when it was built in Python with such a number. *)
Inductive Number : Type :=
| NDecimal (d : Decimal)
| NInt (n : Z)
| NFloat (x : spec_float).

Definition type_name (v : PyVal) : string :=
  match v with
  | PyNone => "NoneType"
  | PyBool _ => "bool"
  | PyInt _ => "int"
  | PyFloat _ => "float"
  | PyStr _ => "str"
  | PyList _ => "list"
  | PyDict _ => "dict"
  end.

(** [float(n)] for an [int]: rounded to nearest even; [None] stands for
    the [OverflowError] of an [int] too large for a [float]. *)
Definition float_of_int (n : Z) : option spec_float :=
  match binary_normalize float_prec float_emax n 0 false with
  | S754_infinity _ => None
  | x => Some x
  end.

(** Small literals convert exactly. *)
Definition float_lit (n : Z) : spec_float :=
  binary_normalize float_prec float_emax n 0 false.

Definition float_div := SFdiv float_prec float_emax.
Definition float_sub := SFsub float_prec float_emax.
Definition float_mul := SFmul float_prec float_emax.

(** [str.replace(old, new)] for one-character [old] and [new]. *)
Fixpoint replace (old new : ascii) (s : string) : string :=
  match s with
  | EmptyString => EmptyString
  | String c s' =>
      String (if Ascii.eqb c old then new else c) (replace old new s')
  end.

Definition is_upper (c : ascii) : bool :=
  let n := nat_of_ascii c in ((65 <=? n) && (n <=? 90))%nat.
Definition is_lower (c : ascii) : bool :=
  let n := nat_of_ascii c in ((97 <=? n) && (n <=? 122))%nat.
Definition to_upper (c : ascii) : ascii :=
  if is_lower c then ascii_of_nat (nat_of_ascii c - 32) else c.
Definition to_lower (c : ascii) : ascii :=
  if is_upper c then ascii_of_nat (nat_of_ascii c + 32) else c.

(** [str.title()] on ASCII text: a cased character that follows an
    uncased one is upper-cased, every other cased character is
    lower-cased. [previous_is_cased] is the flag of CPython's loop. *)
Fixpoint title_from (previous_is_cased : bool) (s : string) : string :=
  match s with
  | EmptyString => EmptyString
  | String c s' =>
      if is_lower c then
        String (if previous_is_cased then c else to_upper c) (title_from true s')
      else if is_upper c then
        String (if previous_is_cased then to_lower c else c) (title_from true s')
      else String c (title_from false s')
  end.

Definition title (s : string) : string := title_from false s.

(** Exceptions. The text of a [ValueError] is an f-string; its pieces
    are kept so that interpolated values stay visible. *)
Inductive Piece : Type :=
| Lit (s : string)
| Fmt (v : PyVal)
| FmtRepr (v : PyVal)
| FmtNumber (x : Number)
| FmtDateTime (t : Z)
| QrCode.

Inductive TypeErrorKind : Type :=
| MultipleValues (func arg : string)
| MissingArgument (func arg : string)
| NotSupportedBetween (op left right : string)
| UnsupportedOperand (op left right : string)
| BadArgument (func : string)
| NaiveAwareCompare.

Inductive Exception : Type :=
| ValueError (msg : list Piece)
| TypeError (kind : TypeErrorKind)
| OverflowError
| LocaleError.

(** [str(v)] where it is plain text; [float] and container values are
    left unrendered. *)
Definition py_str (v : PyVal) : option string :=
  match v with
  | PyNone => Some "None"
  | PyBool true => Some "True"
  | PyBool false => Some "False"
  | PyInt n => Some (pretty n)
  | PyStr s => Some s
  | _ => None
  end.

Fixpoint render (msg : list Piece) : option string :=
  match msg with
  | [] => Some ""
  | Lit s :: rest => (fun r => s +:+ r) <$> render rest
  | Fmt v :: rest =>
      match py_str v with
      | Some s => (fun r => s +:+ r) <$> render rest
      | None => None
      end
  | _ :: _ => None
  end.

Inductive Outcome (A : Type) : Type :=
| Return (a : A)
| Raise (e : Exception).
Arguments Return {A} a.
Arguments Raise {A} e.

End Py.
Import Py.

(** ** utils/enums.py : [ChoicesEnum] *)

Module Enums.

(** The tuple a member is built from. [ChoicesEnumMeta._get_mixins_]
    makes [EnumMeta] hand the declared value to [__new__] and [__init__]
    as one tuple: [X = "a"] arrives as [("a",)], [X = "a", "b"] as
    [("a", "b")]. [first] is [value[0]], [rest] what follows. *)
Record Declared := mkDeclared { first : string; rest : list string }.

Definition bare (v : string) : Declared := mkDeclared v [].
Definition pair (v d : string) : Declared := mkDeclared v [d].

(** [ChoicesEnum.__new__]: [obj._value_ = value[0]]. *)
Definition new_value (value : Declared) : string := first value.

(** [ChoicesEnum.__init__]:
    [value[1] if len(value) > 1 else self._name_.replace("_", " ").title()]. *)
Definition init_desc (_name_ : string) (value : Declared) : string :=
  match rest value with
  | d :: _ => d
  | [] => title (replace "_" " " _name_)
  end.

End Enums.
Import Enums.

(** ** orders/models.py and orders/hooks.py *)

Module Orders.

Inductive State : Type :=
| PENDING_PAYMENT
| PROCESSING
| OUT_FOR_DELIVERY
| DELIVERED
| CANCELLED
| REFUNDED.

#[global] Instance State_eq_dec : EqDecision State.
Proof. solve_decision. Defined.

Definition State_to_nat (s : State) : nat :=
  match s with
  | PENDING_PAYMENT => 0
  | PROCESSING => 1
  | OUT_FOR_DELIVERY => 2
  | DELIVERED => 3
  | CANCELLED => 4
  | REFUNDED => 5
  end%nat.

Definition State_of_nat (n : nat) : State :=
  match n with
  | 0 => PENDING_PAYMENT
  | 1 => PROCESSING
  | 2 => OUT_FOR_DELIVERY
  | 3 => DELIVERED
  | 4 => CANCELLED
  | _ => REFUNDED
  end%nat.

#[global] Instance State_countable : Countable State.
Proof.
  refine (inj_countable' State_to_nat State_of_nat _).
  intros []; reflexivity.
Defined.

Definition _name_ (s : State) : string :=
  match s with
  | PENDING_PAYMENT => "PENDING_PAYMENT"
  | PROCESSING => "PROCESSING"
  | OUT_FOR_DELIVERY => "OUT_FOR_DELIVERY"
  | DELIVERED => "DELIVERED"
  | CANCELLED => "CANCELLED"
  | REFUNDED => "REFUNDED"
  end.

(** The class body of [Order.State]. *)
Definition declared (s : State) : Declared :=
  match s with
  | PENDING_PAYMENT => bare "pending_payment"
  | PROCESSING => bare "processing"
  | OUT_FOR_DELIVERY => bare "out_for_delivery"
  | DELIVERED => pair "delivered" "Package Delivered"
  | CANCELLED => bare "cancelled"
  | REFUNDED => bare "refunded"
  end.

Definition value (s : State) : string := new_value (declared s).
Definition desc (s : State) : string := init_desc (_name_ s) (declared s).

(** Iterating the class yields the members in declaration order. *)
Definition members : list State :=
  [PENDING_PAYMENT; PROCESSING; OUT_FOR_DELIVERY; DELIVERED; CANCELLED; REFUNDED].

(** [ChoicesEnum.choices]. *)
Definition choices : list (string * string) :=
  map (fun e => (value e, desc e)) members.

(** An argument of [is_valid]: a member of the class, or another value. *)
Inductive Arg : Type :=
| Member (s : State)
| Plain (v : PyVal).

(** [ChoicesEnum.is_valid]. *)
Definition is_valid (value_ : Arg) : bool :=
  match value_ with
  | Member _ => true
  | Plain (PyStr s) => existsb (fun e => String.eqb s (value e)) members
  | Plain _ => false
  end.

(** [Order.State(v)]: the lookup of a member by its value that
    [EnumMeta.__call__] performs; an unknown value raises [ValueError]. *)
Definition State_call (v : string) : Outcome State :=
  match find (fun e => String.eqb (value e) v) members with
  | Some e => Return e
  | None => Raise (ValueError [FmtRepr (PyStr v); Lit " is not a valid Order.State"])
  end.

(** *** [Order] and [OrderLog] *)

Record Order := mkOrder {
  pk : Z;
  item : string;
  state : State;
  state_changed : Z;
  price : Number;
  metadata : gmap string PyVal;
  (** the value [MonitorField] remembered at the last load or save *)
  _monitor_state_changed : State
}.

Record OrderLog := mkOrderLog {
  order_id : Z;
  timestamp : Z;
  old_state : State;
  new_state : State;
  extra : gmap string PyVal
}.

(** A row of table [orders]. *)
Record Row := mkRow {
  row_item : string;
  row_state : State;
  row_state_changed : Z;
  row_price : Number;
  row_metadata : gmap string PyVal
}.

Definition row_of (o : Order) : Row :=
  mkRow (item o) (state o) (state_changed o) (price o) (metadata o).

(** [Order._state_map]. *)
Definition _state_map : gmap State (list State) :=
  list_to_map
    [ (PENDING_PAYMENT, [PROCESSING; CANCELLED]);
      (PROCESSING, [OUT_FOR_DELIVERY; REFUNDED]);
      (OUT_FOR_DELIVERY, [DELIVERED; REFUNDED]);
      (DELIVERED, [REFUNDED]) ].

(** [Order.get_possible_next_states]: [self._state_map.get(self.state, ())]. *)
Definition get_possible_next_states (self : Order) : list State :=
  default [] (_state_map !! state self).

(** *** The program state *)

(** A line written by [print]: the pieces of its f-string. *)
Definition Line : Type := list Piece.

(** A [datetime]: naive, or aware of a time zone. *)
Record DateTime := mkDateTime { instant : Z; aware : bool }.

(** What the run-time environment answers: the clock ([now()],
    [datetime.now()]), [datetime.fromisoformat] on a [str] ([None]: not
    an ISO date), and whether [locale.setlocale(locale.LC_ALL, "")]
    accepts the locale the process is started with ([false]: it raises
    [locale.Error]). *)
Record Env := mkEnv {
  now : Z;
  fromisoformat : string -> option DateTime;
  setlocale : bool
}.

(** What a hook works on: the instance it is handed and the output. *)
Record Mem := mkMem { obj : Order; out : list Line }.

(** The steps of a transition, recorded in the order of occurrence: a
    hook is called, [self.state] is assigned, the instance is saved, a
    log record is created. *)
Inductive Event : Type :=
| Called (self : State) (name : string) (func : string)
| Assigned (s : State)
| Saved
| Logged.

Record World := mkWorld {
  env : Env;
  mem : Mem;
  orders : gmap Z Row;
  order_logs : list OrderLog;
  trace : list Event
}.

(** Code that may raise and changes the world. *)
Definition M (A : Type) : Type := World -> Outcome A * World.

#[global] Instance M_ret : MRet M := fun A a w => (Return a, w).
#[global] Instance M_bind : MBind M := fun A B f m w =>
  match m w with
  | (Return a, w') => f a w'
  | (Raise e, w') => (Raise e, w')
  end.

Definition raise {A} (e : Exception) : M A := fun w => (Raise e, w).
Definition gets {A} (f : World -> A) : M A := fun w => (Return (f w), w).
Definition modify (f : World -> World) : M unit := fun w => (Return tt, f w).

Definition set_mem (m : Mem) (w : World) : World :=
  mkWorld (env w) m (orders w) (order_logs w) (trace w).
Definition set_obj (o : Order) (w : World) : World :=
  set_mem (mkMem o (out (mem w))) w.
Definition note (e : Event) (w : World) : World :=
  mkWorld (env w) (mem w) (orders w) (order_logs w) (trace w ++ [e])%list.

(** *** utils/enums.py : [HooksMixin], on the members of [Order.State] *)

(** A registered function: its [__name__] and what a call
    [hook(order, **kwargs)] does. A hook reads the environment, changes
    the instance it is handed and prints; it either returns or raises,
    and what it changed before raising stays changed. *)
Definition HookFn : Type := Env -> gmap string PyVal -> Mem -> Outcome unit * Mem.
Record Hook := mkHook { func_name : string; func_call : HookFn }.

(** The [_hooks] dictionary of every member. *)
Definition Hooks : Type := State -> gmap string (list Hook).

(** Every member starts with [self._hooks = {}]. *)
Definition no_hooks : Hooks := fun _ => ∅.

Definition set_hooks (self : State) (d : gmap string (list Hook)) (h : Hooks) : Hooks :=
  fun s => if decide (s = self) then d else h s.

(** [register_hook(name)]: [if name not in self._hooks: self._hooks[name] = []]. *)
Definition register_hook (self : State) (name : string) (h : Hooks) : Hooks :=
  match h self !! name with
  | Some _ => h
  | None => set_hooks self (<[name := []]> (h self)) h
  end.

(** The decorator it returns: [self._hooks[name].append(func)]. *)
Definition decorator (self : State) (name : string) (func : Hook) (h : Hooks) : Hooks :=
  set_hooks self (<[name := (default [] (h self !! name) ++ [func])%list]> (h self)) h.

(** [@member.register_hook(name)] above a function definition. *)
Definition decorate (self : State) (name : string) (func : Hook) (h : Hooks) : Hooks :=
  decorator self name func (register_hook self name h).

(** Binding [**kwargs] in a call whose leading parameters are already
    given by position: a key equal to one of those parameter names is a
    [TypeError] ("got multiple values for argument"). *)
Fixpoint bind_positional (func : string) (params : list string)
    (kwargs : gmap string PyVal) : option Exception :=
  match params with
  | [] => None
  | p :: ps =>
      match kwargs !! p with
      | Some _ => Some (TypeError (MultipleValues func p))
      | None => bind_positional func ps kwargs
      end
  end.

(** One round of the loop: the hook is called with [args] and [kwargs]. *)
Definition call_hook (self : State) (name : string) (hook : Hook)
    (kwargs : gmap string PyVal) : M unit := fun w =>
  let w1 := note (Called self name (func_name hook)) w in
  let '(r, m) := func_call hook (env w1) kwargs (mem w1) in
  (r, set_mem m w1).

(** [for hook in self._hooks[name]: ...], in list order. *)
Fixpoint for_each_hook (self : State) (name : string) (hooks : list Hook)
    (kwargs : gmap string PyVal) : M unit :=
  match hooks with
  | [] => mret tt
  | hook :: hooks' =>
      call_hook self name hook kwargs ;; for_each_hook self name hooks' kwargs
  end.

(** [execute_hooks(self, name, *args, **kwargs)], called as
    [new_state.execute_hooks(name, order, **kwargs)]. *)
Definition execute_hooks (h : Hooks) (self : State) (name : string)
    (kwargs : gmap string PyVal) : M unit :=
  match bind_positional "execute_hooks" ["self"; "name"] kwargs with
  | Some e => raise e
  | None =>
      match h self !! name with
      | None => mret tt
      | Some hooks => for_each_hook self name hooks kwargs
      end
  end.

(** *** orders/models.py : [Order.transition_state] *)

Definition set_state (s : State) (o : Order) : Order :=
  mkOrder (pk o) (item o) s (state_changed o) (price o) (metadata o)
          (_monitor_state_changed o).

(** [MonitorField("State Changed", monitor="state")] before a save: when
    [state] differs from the remembered value, [state_changed] becomes
    the current time and the new value is remembered. *)
Definition pre_save (t : Z) (o : Order) : Order :=
  if decide (_monitor_state_changed o = state o) then o
  else mkOrder (pk o) (item o) (state o) t (price o) (metadata o) (state o).

(** [self.save()]: the row of the instance is written with all columns.
    The row records the values the instance hands to its columns; what
    a column makes of a value (the price column keeps two decimal
    places) is the database's and not part of the model, and the
    database is taken to accept the write. *)
Definition save : M unit := fun w =>
  let o := pre_save (now (env w)) (obj (mem w)) in
  (Return tt,
   note Saved (mkWorld (env w) (mkMem o (out (mem w)))
                       (<[pk o := row_of o]> (orders w)) (order_logs w) (trace w))).

(** [self.logs.create(old_state=..., new_state=..., extra=...)]. *)
Definition logs_create (old_state_ new_state_ : State)
    (extra_ : gmap string PyVal) : M unit := fun w =>
  let log := mkOrderLog (pk (obj (mem w))) (now (env w)) old_state_ new_state_ extra_ in
  (Return tt,
   note Logged (mkWorld (env w) (mem w) (orders w) (order_logs w ++ [log])%list (trace w))).

(** [transition_state(self, new_state, **kwargs)], called as
    [order.transition_state(new_state, **kwargs)]: the keywords are bound
    against [self] and [new_state] before the body runs. *)
Definition transition_state (h : Hooks) (new_state_ : State)
    (kwargs : gmap string PyVal) : M unit :=
  match bind_positional "transition_state" ["self"; "new_state"] kwargs with
  | Some e => raise e
  | None =>
      old_state_ ← gets (fun w => state (obj (mem w)));
      possible ← gets (fun w => get_possible_next_states (obj (mem w)));
      if negb (bool_decide (new_state_ ∈ possible)) then
        raise (ValueError [Lit "Can't transition from "; Fmt (PyStr (value old_state_));
                           Lit " to "; Fmt (PyStr (value new_state_))])
      else
        execute_hooks h new_state_ "before" kwargs ;;
        modify (fun w => note (Assigned new_state_)
                              (set_obj (set_state new_state_ (obj (mem w))) w)) ;;
        save ;;
        logs_create old_state_ new_state_ kwargs ;;
        execute_hooks h new_state_ "after" kwargs
  end.

(** *** orders/hooks.py *)

Definition esc : string := String (ascii_of_nat 27) "".
Definition green : string := esc +:+ "[32m".

Definition set_metadata (k : string) (v : PyVal) (m : Mem) : Mem :=
  let o := obj m in
  mkMem (mkOrder (pk o) (item o) (state o) (state_changed o) (price o)
                 (<[k := v]> (metadata o)) (_monitor_state_changed o))
        (out m).

Definition set_price (x : Number) (m : Mem) : Mem :=
  let o := obj m in
  mkMem (mkOrder (pk o) (item o) (state o) (state_changed o) x
                 (metadata o) (_monitor_state_changed o))
        (out m).

(** [print(...)]: the line is added to the output, which is taken to
    accept it. *)
Definition print (l : Line) (m : Mem) : Mem := mkMem (obj m) (out m ++ [l])%list.

(** [v in ("cash", "card")]: only a [str] equals a [str]. *)
Definition in_strings (v : PyVal) (options : list string) : bool :=
  match v with
  | PyStr s => existsb (String.eqb s) options
  | _ => false
  end.

(** [validate_payment_method(order, payment_method=None, **kwargs)]. *)
Definition validate_payment_method : HookFn := fun _ kwargs m =>
  match bind_positional "validate_payment_method" ["order"] kwargs with
  | Some e => (Raise e, m)
  | None =>
      let payment_method := default PyNone (kwargs !! "payment_method") in
      if negb (in_strings payment_method ["cash"; "card"]) then
        (Raise (ValueError [Lit "Invalid payment method: "; Fmt payment_method]), m)
      else (Return tt, set_metadata "payment_method" payment_method m)
  end.

(** [n <= v] and [v <= n] for an [int] literal [n]; [bool] is an [int],
    an [int] and a [float] compare by value, any other type is a
    [TypeError]. *)
Definition int_le_val (n : Z) (v : PyVal) : Exception + bool :=
  match v with
  | PyBool b => inr (n <=? Z.b2z b)
  | PyInt k => inr (n <=? k)
  | PyFloat x => inr (SFleb (float_lit n) x)
  | _ => inl (TypeError (NotSupportedBetween "<=" "int" (type_name v)))
  end.

Definition val_le_int (v : PyVal) (n : Z) : Exception + bool :=
  match v with
  | PyBool b => inr (Z.b2z b <=? n)
  | PyInt k => inr (k <=? n)
  | PyFloat x => inr (SFleb x (float_lit n))
  | _ => inl (TypeError (NotSupportedBetween "<=" (type_name v) "int"))
  end.

(** [lo <= v <= hi]: the second comparison is made only when the first
    one holds. *)
Definition between (lo : Z) (v : PyVal) (hi : Z) : Exception + bool :=
  match int_le_val lo v with
  | inl e => inl e
  | inr false => inr false
  | inr true => val_le_int v hi
  end.

(** [1 - v / 100] for a [v] that passed [0 <= v <= 100]: true division
    makes a [float] of an [int] or [bool], whose value converts exactly. *)
Definition one_minus_percent (v : PyVal) : option spec_float :=
  match v with
  | PyBool b => Some (float_sub (float_lit 1) (float_div (float_lit (Z.b2z b)) (float_lit 100)))
  | PyInt k => Some (float_sub (float_lit 1) (float_div (float_lit k) (float_lit 100)))
  | PyFloat x => Some (float_sub (float_lit 1) (float_div x (float_lit 100)))
  | _ => None
  end.

(** [price * factor] for a [float] factor: [Decimal] refuses a [float]
    operand, an [int] is converted to [float] first. *)
Definition mul_float (p : Number) (factor : spec_float) : Exception + Number :=
  match p with
  | NDecimal _ => inl (TypeError (UnsupportedOperand "*" "decimal.Decimal" "float"))
  | NInt n =>
      match float_of_int n with
      | Some x => inr (NFloat (float_mul x factor))
      | None => inl OverflowError
      end
  | NFloat x => inr (NFloat (float_mul x factor))
  end.

(** [apply_discount(order, discount=None, **kwargs)]. *)
Definition apply_discount : HookFn := fun _ kwargs m =>
  match bind_positional "apply_discount" ["order"] kwargs with
  | Some e => (Raise e, m)
  | None =>
      let discount := default PyNone (kwargs !! "discount") in
      match discount with
      | PyNone => (Return tt, m)
      | _ =>
          match between 0 discount 100 with
          | inl e => (Raise e, m)
          | inr false =>
              (Raise (ValueError [Lit "Invalid discount percentage: "; Fmt discount]), m)
          | inr true =>
              match one_minus_percent discount with
              | None => (Raise (TypeError (UnsupportedOperand "/" (type_name discount) "int")), m)
              | Some factor =>
                  match mul_float (price (obj m)) factor with
                  | inl e => (Raise e, m)
                  | inr p => (Return tt, set_metadata "discount" discount (set_price p m))
                  end
              end
          end
      end
  end.

(** [notify_payment_success(order, payment_method, **kwargs)]. *)
Definition notify_payment_success : HookFn := fun _ kwargs m =>
  match bind_positional "notify_payment_success" ["order"] kwargs with
  | Some e => (Raise e, m)
  | None =>
      match kwargs !! "payment_method" with
      | None => (Raise (TypeError (MissingArgument "notify_payment_success" "payment_method")), m)
      | Some payment_method =>
          let m1 := print [Lit green; Lit "Payment for order #"; Fmt (PyInt (pk (obj m)));
                           Lit " successful!"] m in
          (Return tt,
           print [Lit green; Lit "Total: "; FmtNumber (price (obj m1));
                  Lit " (paid with "; Fmt payment_method; Lit ")"] m1)
      end
  end.

(** [datetime.fromisoformat(v)]. *)
Definition parse_date (e : Env) (v : PyVal) : Exception + DateTime :=
  match v with
  | PyStr s =>
      match fromisoformat e s with
      | Some d => inr d
      | None => inl (ValueError [Lit "Invalid isoformat string: "; FmtRepr v])
      end
  | _ => inl (TypeError (BadArgument "fromisoformat"))
  end.

(** [validate_delivery_date(order, delivery_date=None, **kwargs)]. *)
Definition validate_delivery_date : HookFn := fun e kwargs m =>
  match bind_positional "validate_delivery_date" ["order"] kwargs with
  | Some x => (Raise x, m)
  | None =>
      let delivery_date := default PyNone (kwargs !! "delivery_date") in
      match delivery_date with
      | PyNone => (Raise (ValueError [Lit "Delivery date is required"]), m)
      | _ =>
          match parse_date e delivery_date with
          | inl x => (Raise x, m)
          | inr parsed_date =>
              if aware parsed_date then (Raise (TypeError NaiveAwareCompare), m)
              else if instant parsed_date <? now e then
                (Raise (ValueError [Lit "Delivery date must be in the future"]), m)
              else (Return tt, set_metadata "delivery_date" delivery_date m)
          end
      end
  end.

(** [notify_out_for_delivery(order, delivery_date, **kwargs)]; its
    first statement is [locale.setlocale(locale.LC_ALL, "")]. *)
Definition notify_out_for_delivery : HookFn := fun e kwargs m =>
  match bind_positional "notify_out_for_delivery" ["order"] kwargs with
  | Some x => (Raise x, m)
  | None =>
      match kwargs !! "delivery_date" with
      | None => (Raise (TypeError (MissingArgument "notify_out_for_delivery" "delivery_date")), m)
      | Some delivery_date =>
          if negb (setlocale e) then (Raise LocaleError, m)
          else
            match parse_date e delivery_date with
            | inl x => (Raise x, m)
            | inr parsed_date =>
                let m1 := print [Lit green; Lit "Order #"; Fmt (PyInt (pk (obj m)));
                                 Lit " is out for delivery!"] m in
                (Return tt,
                 print [Lit green; Lit "Delivery date: "; FmtDateTime (instant parsed_date)] m1)
            end
      end
  end.

(** [notify_delivery_success(order, **kwargs)]. *)
Definition notify_delivery_success : HookFn := fun _ kwargs m =>
  match bind_positional "notify_delivery_success" ["order"] kwargs with
  | Some x => (Raise x, m)
  | None =>
      (Return tt,
       print [Lit green; Lit "Order #"; Fmt (PyInt (pk (obj m)));
              Lit " delivered successfully!"] m)
  end.

(** [send_questionnaire(order, **kwargs)]; [QrCode] stands for the
    picture it prints. *)
Definition send_questionnaire : HookFn := fun _ kwargs m =>
  match bind_positional "send_questionnaire" ["order"] kwargs with
  | Some x => (Raise x, m)
  | None =>
      let m1 := print [Lit green;
                       Lit "We're sad to see you go! Please fill out this questionnaire:"] m in
      (Return tt, print [QrCode] m1)
  end.

(** The registrations of the module, in the order the decorators run.
    Of the two decorators stacked on [send_questionnaire] both
    [register_hook] calls come first (top down), then the functions are
    appended bottom up. *)
Definition registered : Hooks :=
  let h := decorate PROCESSING "before"
             (mkHook "validate_payment_method" validate_payment_method) no_hooks in
  let h := decorate PROCESSING "before" (mkHook "apply_discount" apply_discount) h in
  let h := decorate PROCESSING "after"
             (mkHook "notify_payment_success" notify_payment_success) h in
  let h := decorate OUT_FOR_DELIVERY "before"
             (mkHook "validate_delivery_date" validate_delivery_date) h in
  let h := decorate OUT_FOR_DELIVERY "after"
             (mkHook "notify_out_for_delivery" notify_out_for_delivery) h in
  let h := decorate DELIVERED "after"
             (mkHook "notify_delivery_success" notify_delivery_success) h in
  let h := register_hook CANCELLED "after" h in
  let h := register_hook REFUNDED "after" h in
  let h := decorator REFUNDED "after" (mkHook "send_questionnaire" send_questionnaire) h in
  decorator CANCELLED "after" (mkHook "send_questionnaire" send_questionnaire) h.

(** *** utils/enums.py : [ChoicesEnumMeta.__contains__] and [EnumField] *)

(** The text of a value that is a [str]; a member is a [str] whose text
    is its value. *)
Definition arg_str (a : Arg) : option string :=
  match a with
  | Member s => Some (value s)
  | Plain (PyStr v) => Some v
  | Plain _ => None
  end.

(** [a == v] for a [str] [v]: strings compare by text, a value of
    another type equals no string. *)
Definition eq_str (a : Arg) (v : string) : bool :=
  match arg_str a with
  | Some u => String.eqb u v
  | None => false
  end.

(** [ChoicesEnumMeta.__contains__]: [member in cls._member_map_.values()]. *)
Definition contains (member : Arg) : bool :=
  existsb (fun e => eq_str member (value e)) members.

Definition is_none (a : Arg) : bool :=
  match a with
  | Plain PyNone => true
  | _ => false
  end.

(** [self.enum_cls(value)]: a member is returned as it is, another
    value is looked up among the members' values. *)
Definition enum_cls (a : Arg) : Outcome State :=
  match a with
  | Member s => Return s
  | Plain (PyStr v) => State_call v
  | Plain v => Raise (ValueError [FmtRepr v; Lit " is not a valid Order.State"])
  end.

(** [EnumField.to_python], for a field of [Order.State] with option
    [blank]. The second component lists the values a warning was logged
    for. *)
Definition to_python (blank : bool) (value_ : Arg) : Outcome Arg * list Arg :=
  if is_none value_ then (Return (Plain PyNone), [])
  else if eq_str value_ "" && blank then (Return (Plain (PyStr "")), [])
  else if negb (is_valid value_) then (Return value_, [value_])
  else
    match enum_cls value_ with
    | Return s => (Return (Member s), [])
    | Raise e => (Raise e, [])
    end.

(** [EnumField.from_db_value]; a column holds [NULL] or a string. *)
Definition from_db_value (blank : bool) (column : option string) : Outcome Arg * list Arg :=
  to_python blank (match column with
                   | None => Plain PyNone
                   | Some v => Plain (PyStr v)
                   end).

(** [EnumField.get_prep_value]. [super().get_prep_value(value)] is
    [CharField.get_prep_value] of Django, which returns
    [self.to_python(value)], so the value first goes through
    [to_python] above. The result is [None] or the string to store. *)
Definition get_prep_value (blank : bool) (value_ : Arg) : Outcome (option string) * list Arg :=
  match to_python blank value_ with
  | (Raise e, logged) => (Raise e, logged)
  | (Return v, logged) =>
      if is_none v then (Return None, logged)
      else if eq_str v "" && blank then (Return (Some ""), logged)
      else
        match arg_str v with
        | None => (Raise (TypeError (BadArgument "get_prep_value")), logged)
        | Some text =>
            (Return (Some text), if is_valid v then logged else (logged ++ [v])%list)
        end
  end.

(** *** orders/admin.py : [OrderAdmin] *)

(** The buttons of [operations]: for each possible next state the value
    the button submits and the label it shows. *)
Definition operations (obj_ : Order) : list (string * string) :=
  map (fun s => (value s, desc s)) (get_possible_next_states obj_).

(** [**v] in a call: [v] has to be a mapping. *)
Definition unpack (v : PyVal) : Outcome (gmap string PyVal) :=
  match v with
  | PyDict d => Return (list_to_map d)
  | _ => Raise (TypeError (BadArgument "transition_state"))
  end.

(** [except ValueError as err: self.message_user(request, str(err), level="error")];
    any other exception goes on to the caller. *)
Definition message_user_on_error (e : Exception) (messages : list (list Piece))
    : Outcome unit * list (list Piece) :=
  match e with
  | ValueError msg => (Return tt, (messages ++ [msg])%list)
  | _ => (Raise e, messages)
  end.

(** [response_change], up to the call of the inherited method.
    [new_state_] is the posted [__transition_state] and [loaded] what
    [json.loads] makes of the posted [__extra]; [Order.State(new_state)]
    is evaluated before it. The loaded object is unpacked into the
    keyword arguments of [obj.transition_state(new_state, **extra)]. *)
Definition response_change (h : Hooks) (new_state_ : option string)
    (loaded : Outcome PyVal) (messages : list (list Piece)) (w : World)
    : Outcome unit * list (list Piece) * World :=
  match new_state_ with
  | None | Some "" => (Return tt, messages, w)
  | Some v =>
      match State_call v with
      | Raise e => (message_user_on_error e messages, w)
      | Return target =>
          match loaded with
          | Raise e => (message_user_on_error e messages, w)
          | Return extra_ =>
              match unpack extra_ with
              | Raise e => (message_user_on_error e messages, w)
              | Return kwargs =>
                  match transition_state h target kwargs w with
                  | (Return _, w') => (Return tt, messages, w')
                  | (Raise e, w') => (message_user_on_error e messages, w')
                  end
              end
          end
      end
  end.

End Orders.
Import Orders.

(** ** Reading a run of the hook loop *)

(** The events of calling [hooks] one after the other. *)
Definition calls (self : State) (name : string) (hooks : list Hook) : list Event :=
  map (fun hook => Called self name (func_name hook)) hooks.

(** What the loop over [hooks] does to the instance and the output: it
    stops at the first hook that raises, keeping what was done so far. *)
Fixpoint run_hooks (e : Env) (hooks : list Hook) (kwargs : gmap string PyVal)
    (m : Mem) : Outcome unit * Mem :=
  match hooks with
  | [] => (Return tt, m)
  | hook :: hooks' =>
      match func_call hook e kwargs m with
      | (Return _, m') => run_hooks e hooks' kwargs m'
      | (Raise x, m') => (Raise x, m')
      end
  end.

(** How many hooks of the list get called. *)
Fixpoint called_count (e : Env) (hooks : list Hook) (kwargs : gmap string PyVal)
    (m : Mem) : nat :=
  match hooks with
  | [] => 0
  | hook :: hooks' =>
      match func_call hook e kwargs m with
      | (Return _, m') => S (called_count e hooks' kwargs m')
      | (Raise _, _) => 1
      end
  end.

(** The hooks a member holds under a name; none when the name was never
    registered. *)
Definition hooks_of (h : Hooks) (self : State) (name : string) : list Hook :=
  default [] (h self !! name).

(** Hook number [k] of the list raises [x], the earlier ones having
    returned; [m'] is the memory it leaves. *)
Definition raises_at (e : Env) (hooks : list Hook) (kwargs : gmap string PyVal)
    (m : Mem) (k : nat) (x : Exception) (m' : Mem) : Prop :=
  ∃ hook m1,
    run_hooks e (take k hooks) kwargs m = (Return tt, m1) ∧
    hooks !! k = Some hook ∧
    func_call hook e kwargs m1 = (Raise x, m').

(** The keyword arguments can be passed on to [execute_hooks]. *)
Definition binds (kwargs : gmap string PyVal) : Prop :=
  bind_positional "execute_hooks" ["self"; "name"] kwargs = None.

(** The keyword arguments can be given to [transition_state]. *)
Definition binds_call (kwargs : gmap string PyVal) : Prop :=
  bind_positional "transition_state" ["self"; "new_state"] kwargs = None.

(** Steps "commit" and "record" of a transition from [old] to [new],
    applied to the world the before-hooks left. *)
Definition commit (old new : State) (kwargs : gmap string PyVal) (w : World) : World :=
  let w1 := note (Assigned new) (set_obj (set_state new (obj (mem w))) w) in
  snd (logs_create old new kwargs (snd (save w1))).

(** ** Sample data *)

Definition sample_env : Env := mkEnv 1000 (fun _ => None) true.

(** An order as the database returns it: the price is a [Decimal]. *)
Definition stored_order : Order :=
  mkOrder 1 "book" PENDING_PAYMENT 10 (NDecimal (mkDecimal 10000 (-2))) ∅ PENDING_PAYMENT.

(** An order built in Python with an [int] price. *)
Definition fresh_order : Order :=
  mkOrder 1 "book" PENDING_PAYMENT 10 (NInt 100) ∅ PENDING_PAYMENT.

Definition world_of (o : Order) : World :=
  mkWorld sample_env (mkMem o []) {[ pk o := row_of o ]} [] [].

Definition cash_discount (n : Z) : gmap string PyVal :=
  {[ "payment_method" := PyStr "cash"; "discount" := PyInt n ]}.

(** ** The state graph and the history of an order *)

(** The entry of [_state_map] for a state. *)
Definition next_states (s : State) : list State := default [] (_state_map !! s).

(** A chain of legal moves starting in [s]. *)
Fixpoint is_path (s : State) (l : list State) : Prop :=
  match l with
  | [] => True
  | t :: l' => t ∈ next_states s ∧ is_path t l'
  end.

(** How far a state is along the life of an order. *)
Definition rank (s : State) : nat :=
  match s with
  | PENDING_PAYMENT => 0
  | PROCESSING => 1
  | OUT_FOR_DELIVERY => 2
  | DELIVERED => 3
  | CANCELLED | REFUNDED => 4
  end.

(** [self.logs]: the records of the instance, oldest first. *)
Definition logs (w : World) : list OrderLog :=
  List.filter (fun l => bool_decide (order_id l = pk (obj (mem w)))) (order_logs w).

(** Each record starts where the one before it ended. *)
Fixpoint linked (l : list OrderLog) : Prop :=
  match l with
  | [] => True
  | a :: l' =>
      match l' with
      | [] => True
      | b :: _ => new_state a = old_state b
      end ∧ linked l'
  end.

(** The instance, its row and its records agree. *)
Record consistent (w : World) : Prop := mkConsistent {
  row_in_step : row_state <$> orders w !! pk (obj (mem w)) = Some (state (obj (mem w)));
  monitor_in_step : _monitor_state_changed (obj (mem w)) = state (obj (mem w));
  logs_legal : Forall (fun l => new_state l ∈ next_states (old_state l)) (logs w);
  logs_linked : linked (logs w);
  logs_current : ∀ l, last (logs w) = Some l → new_state l = state (obj (mem w))
}.

(** A series of transition attempts with the hooks of the module, the
    outcome of each being dropped. *)
Fixpoint attempts (l : list (State * gmap string PyVal)) (w : World) : World :=
  match l with
  | [] => w
  | (target, kwargs) :: l' => attempts l' (snd (transition_state registered target kwargs w))
  end.

(** A hook that leaves the identity and the state of the instance alone
    and that changes nothing when it raises. *)
Definition modest (f : HookFn) : Prop :=
  ∀ e kwargs m r m',
    f e kwargs m = (r, m') →
    pk (obj m') = pk (obj m) ∧
    item (obj m') = item (obj m) ∧
    state (obj m') = state (obj m) ∧
    state_changed (obj m') = state_changed (obj m) ∧
    _monitor_state_changed (obj m') = _monitor_state_changed (obj m) ∧
    (∀ x, r = Raise x → m' = m).

(** A hook that does not change the instance at all. *)
Definition silent (f : HookFn) : Prop :=
  ∀ e kwargs m r m', f e kwargs m = (r, m') → obj m' = obj m.

(** ** Lemmas on the monad and the hook loop *)

Lemma bind_return {A B} (f : A → M B) (c : M A) (w w1 : World) (a : A) :
  c w = (Return a, w1) → (c ≫= f) w = f a w1.
Proof. intros H. unfold mbind, M_bind. by rewrite H. Qed.

Lemma bind_raise {A B} (f : A → M B) (c : M A) (w w1 : World) (x : Exception) :
  c w = (Raise x, w1) → (c ≫= f) w = (Raise x, w1).
Proof. intros H. unfold mbind, M_bind. by rewrite H. Qed.

Lemma calls_app self name l1 l2 :
  calls self name (l1 ++ l2) = (calls self name l1 ++ calls self name l2)%list.
Proof. unfold calls. apply map_app. Qed.

Lemma for_each_hook_run self name kwargs hooks w :
  for_each_hook self name hooks kwargs w =
  (fst (run_hooks (env w) hooks kwargs (mem w)),
   mkWorld (env w) (snd (run_hooks (env w) hooks kwargs (mem w)))
           (orders w) (order_logs w)
           (trace w ++ calls self name
                        (take (called_count (env w) hooks kwargs (mem w)) hooks))%list).
Proof.
  revert w. induction hooks as [|hook hooks IH]; intros w.
  - destruct w; cbn. by rewrite app_nil_r.
  - cbn [for_each_hook run_hooks called_count].
    unfold mbind, M_bind, call_hook. cbn [note env mem set_mem].
    destruct (func_call hook (env w) kwargs (mem w)) as [[[]|x] m'] eqn:Hc.
    + rewrite IH. cbn. by rewrite <- app_assoc.
    + cbn. reflexivity.
Qed.

Lemma called_count_return e hooks kwargs m m' :
  run_hooks e hooks kwargs m = (Return tt, m') →
  called_count e hooks kwargs m = length hooks.
Proof.
  revert m. induction hooks as [|hook hooks IH]; intros m; cbn; [done|].
  destruct (func_call hook e kwargs m) as [[[]|x] m1]; [|done].
  intros H. by rewrite (IH _ H).
Qed.

Lemma called_count_raise e hooks kwargs m x m' :
  run_hooks e hooks kwargs m = (Raise x, m') →
  ∃ k, called_count e hooks kwargs m = S k ∧ raises_at e hooks kwargs m k x m'.
Proof.
  revert m. induction hooks as [|hook hooks IH]; intros m; cbn; [done|].
  destruct (func_call hook e kwargs m) as [[[]|y] m1] eqn:Hc.
  - intros H. destruct (IH _ H) as (k & Hk & hk & m2 & Hrun & Hlk & Hr).
    exists (S k). split; [by rewrite Hk|].
    exists hk, m2. cbn. rewrite Hc. done.
  - intros [= -> ->]. exists 0%nat. split; [done|].
    exists hook, m. done.
Qed.

Lemma raises_at_run e hooks kwargs m k x m' :
  raises_at e hooks kwargs m k x m' →
  run_hooks e hooks kwargs m = (Raise x, m') ∧
  called_count e hooks kwargs m = S k.
Proof.
  revert m k. induction hooks as [|hook hooks IH]; intros m k (hk & m1 & Hrun & Hlk & Hr).
  - by rewrite lookup_nil in Hlk.
  - destruct k as [|k]; cbn in *.
    + injection Hrun as <-. injection Hlk as <-. by rewrite Hr.
    + destruct (func_call hook e kwargs m) as [[[]|y] m2]; [|done].
      destruct (IH m2 k) as [-> ->]; [by exists hk, m1|done].
Qed.

Lemma raises_at_lt e hooks kwargs m k x m' :
  raises_at e hooks kwargs m k x m' → (k < length hooks)%nat.
Proof. intros (hk & m1 & _ & Hlk & _). by eapply lookup_lt_Some. Qed.

Lemma world_eta w :
  mkWorld (env w) (mem w) (orders w) (order_logs w) (trace w) = w.
Proof. by destruct w. Qed.

Lemma execute_hooks_run h self name kwargs w :
  binds kwargs →
  execute_hooks h self name kwargs w =
  for_each_hook self name (hooks_of h self name) kwargs w.
Proof.
  unfold binds, execute_hooks, hooks_of. intros ->.
  by destruct (h self !! name) as [hooks|].
Qed.

Lemma execute_hooks_unbound h self name kwargs w x :
  bind_positional "execute_hooks" ["self"; "name"] kwargs = Some x →
  execute_hooks h self name kwargs w = (Raise x, w).
Proof. unfold execute_hooks. by intros ->. Qed.

Lemma execute_hooks_frame h self name kwargs w r w' :
  execute_hooks h self name kwargs w = (r, w') →
  env w' = env w ∧ orders w' = orders w ∧ order_logs w' = order_logs w.
Proof.
  unfold execute_hooks.
  destruct (bind_positional _ _ _); [by intros [= <- <-]|].
  destruct (h self !! name); [|by intros [= <- <-]].
  rewrite for_each_hook_run. by intros [= <- <-].
Qed.

Section Transition.
Context (h : Hooks) (new : State) (kwargs : gmap string PyVal) (w : World).

Lemma transition_state_unbound x :
  bind_positional "transition_state" ["self"; "new_state"] kwargs = Some x →
  transition_state h new kwargs w = (Raise x, w).
Proof. unfold transition_state. by intros ->. Qed.

Lemma transition_state_illegal :
  binds_call kwargs →
  new ∉ get_possible_next_states (obj (mem w)) →
  transition_state h new kwargs w =
  (Raise (ValueError [Lit "Can't transition from ";
                      Fmt (PyStr (value (state (obj (mem w)))));
                      Lit " to "; Fmt (PyStr (value new))]), w).
Proof.
  intros Hcall Hno. unfold transition_state. rewrite Hcall.
  unfold mbind, M_bind, gets.
  by rewrite bool_decide_eq_false_2.
Qed.

Lemma transition_state_vetoed x w1 :
  binds_call kwargs →
  new ∈ get_possible_next_states (obj (mem w)) →
  execute_hooks h new "before" kwargs w = (Raise x, w1) →
  transition_state h new kwargs w = (Raise x, w1).
Proof.
  intros Hcall Hin Hb. unfold transition_state. rewrite Hcall.
  unfold mbind, M_bind, gets.
  rewrite bool_decide_eq_true_2 by done. cbn [negb]. by rewrite Hb.
Qed.

Lemma transition_state_accepted w1 :
  binds_call kwargs →
  new ∈ get_possible_next_states (obj (mem w)) →
  execute_hooks h new "before" kwargs w = (Return tt, w1) →
  transition_state h new kwargs w =
  execute_hooks h new "after" kwargs (commit (state (obj (mem w))) new kwargs w1).
Proof.
  intros Hcall Hin Hb. unfold transition_state. rewrite Hcall.
  unfold mbind, M_bind, gets.
  rewrite bool_decide_eq_true_2 by done. cbn [negb]. by rewrite Hb.
Qed.
End Transition.

(** A key that collides with a parameter of [transition_state] is
    [self] or [new_state]; the keywords then never reach the body. *)
Lemma binds_call_cases (kwargs : gmap string PyVal) :
  binds_call kwargs ∨
  ∃ p, bind_positional "transition_state" ["self"; "new_state"] kwargs =
       Some (TypeError (MultipleValues "transition_state" p)).
Proof.
  unfold binds_call. cbn [bind_positional].
  destruct (kwargs !! "self"); [right; by eexists|].
  destruct (kwargs !! "new_state"); [right; by eexists|]. by left.
Qed.

Lemma commit_orders old new kwargs w :
  orders (commit old new kwargs w) =
  <[pk (obj (mem w)) := row_of (pre_save (now (env w)) (set_state new (obj (mem w))))]>
    (orders w).
Proof.
  unfold commit, save, logs_create, pre_save; cbn.
  by destruct (decide _).
Qed.

Lemma commit_order_logs old new kwargs w :
  order_logs (commit old new kwargs w) =
  (order_logs w ++ [mkOrderLog (pk (obj (mem w))) (now (env w)) old new kwargs])%list.
Proof.
  unfold commit, save, logs_create, pre_save; cbn.
  by destruct (decide _).
Qed.

Lemma commit_trace old new kwargs w :
  trace (commit old new kwargs w) = (trace w ++ [Assigned new; Saved; Logged])%list.
Proof. unfold commit, save, logs_create; cbn. by rewrite <- !app_assoc. Qed.

Lemma commit_env old new kwargs w : env (commit old new kwargs w) = env w.
Proof. reflexivity. Qed.

Lemma commit_mem old new kwargs w :
  mem (commit old new kwargs w) =
  mkMem (pre_save (now (env w)) (set_state new (obj (mem w)))) (out (mem w)).
Proof. reflexivity. Qed.

Lemma commit_state old new kwargs w :
  state (obj (mem (commit old new kwargs w))) = new.
Proof.
  unfold commit, save, logs_create, pre_save; cbn.
  by destruct (decide _).
Qed.

(** ** The enumeration *)

Example title_out_for_delivery :
  title (replace "_" " " "OUT_FOR_DELIVERY") = "Out For Delivery".
Proof. reflexivity. Qed.

Lemma State_call_value (s : State) : State_call (value s) = Return s.
Proof. by destruct s. Qed.

Lemma is_valid_str_spec (v : string) :
  is_valid (Plain (PyStr v)) = true ↔ ∃ e, value e = v.
Proof.
  cbn [is_valid]. rewrite existsb_exists. split.
  - intros (e & _ & He). apply String.eqb_eq in He. eauto.
  - intros [e <-]. exists e. split; [|apply String.eqb_refl].
    destruct e; cbn; tauto.
Qed.

(** C7: [Order.State(value)] gives back the member whose value it is,
    [is_valid] accepts every member's value and every member, and it
    rejects a string that is the value of no member. *)
Theorem C7_state_value_round_trip (s : State) (v : string)
    (Hv : ∀ e : State, value e ≠ v) :
  State_call (value s) = Return s ∧
  is_valid (Plain (PyStr (value s))) = true ∧
  is_valid (Member s) = true ∧
  is_valid (Plain (PyStr v)) = false.
Proof.
  split; [apply State_call_value|].
  split; [apply is_valid_str_spec; eauto|].
  split; [done|].
  apply not_true_is_false. rewrite is_valid_str_spec.
  intros [e He]. by apply (Hv e).
Qed.

Lemma C7_state_value_round_trip_witness :
  State_call "delivered" = Return DELIVERED ∧
  is_valid (Plain (PyStr "delivered")) = true ∧
  is_valid (Member DELIVERED) = true ∧
  is_valid (Plain (PyStr "shipped")) = false.
Proof.
  apply (C7_state_value_round_trip DELIVERED "shipped").
  intros []; discriminate.
Defined.

(** C8: a member declared with a pair takes the second component as its
    label, a member declared with a bare value takes its name with
    underscores turned into spaces and title-cased, and [choices] lists
    the (value, label) pairs in declaration order. *)
Theorem C8_labels_and_choices (s t : State) (v d u : string)
    (Hs : declared s = pair v d) (Ht : declared t = bare u) :
  (value s = v ∧ desc s = d) ∧
  (value t = u ∧ desc t = title (replace "_" " " (_name_ t))) ∧
  desc DELIVERED = "Package Delivered" ∧
  choices = map (fun e => (value e, desc e)) members ∧
  choices = [ ("pending_payment", "Pending Payment");
              ("processing", "Processing");
              ("out_for_delivery", "Out For Delivery");
              ("delivered", "Package Delivered");
              ("cancelled", "Cancelled");
              ("refunded", "Refunded") ].
Proof.
  unfold value, desc. rewrite Hs, Ht. by repeat split.
Qed.

Lemma C8_labels_and_choices_witness :
  (value DELIVERED = "delivered" ∧ desc DELIVERED = "Package Delivered") ∧
  (value OUT_FOR_DELIVERY = "out_for_delivery" ∧
   desc OUT_FOR_DELIVERY = "Out For Delivery").
Proof.
  pose proof (C8_labels_and_choices DELIVERED OUT_FOR_DELIVERY
                "delivered" "Package Delivered" "out_for_delivery"
                eq_refl eq_refl) as (H1 & H2 & _).
  exact (conj H1 H2).
Defined.

(** ** The adjacency table *)

(** C6: [get_possible_next_states] is the entry of [_state_map] for the
    current state and the empty tuple when there is none; [CANCELLED]
    and [REFUNDED] have no entry, hence no successor. *)
Theorem C6_possible_next_states (o : Order) :
  get_possible_next_states o = default [] (_state_map !! state o) ∧
  (∀ l, _state_map !! state o = Some l → get_possible_next_states o = l) ∧
  (_state_map !! state o = None → get_possible_next_states o = []) ∧
  _state_map !! CANCELLED = None ∧
  _state_map !! REFUNDED = None ∧
  get_possible_next_states o =
    match state o with
    | PENDING_PAYMENT => [PROCESSING; CANCELLED]
    | PROCESSING => [OUT_FOR_DELIVERY; REFUNDED]
    | OUT_FOR_DELIVERY => [DELIVERED; REFUNDED]
    | DELIVERED => [REFUNDED]
    | CANCELLED | REFUNDED => []
    end.
Proof.
  unfold get_possible_next_states.
  split; [done|]. split; [by intros l ->|]. split; [by intros ->|].
  split; [by vm_compute|]. split; [by vm_compute|].
  destruct (state o); by vm_compute.
Qed.

Lemma C6_possible_next_states_witness :
  get_possible_next_states stored_order = [PROCESSING; CANCELLED].
Proof.
  apply (proj1 (proj2 (C6_possible_next_states stored_order))).
  by vm_compute.
Defined.

(** ** The registry of orders/hooks.py *)

Lemma registered_hooks :
  hooks_of registered PROCESSING "before" =
    [ mkHook "validate_payment_method" validate_payment_method;
      mkHook "apply_discount" apply_discount ] ∧
  hooks_of registered PROCESSING "after" =
    [ mkHook "notify_payment_success" notify_payment_success ] ∧
  hooks_of registered OUT_FOR_DELIVERY "before" =
    [ mkHook "validate_delivery_date" validate_delivery_date ] ∧
  hooks_of registered OUT_FOR_DELIVERY "after" =
    [ mkHook "notify_out_for_delivery" notify_out_for_delivery ] ∧
  hooks_of registered DELIVERED "after" =
    [ mkHook "notify_delivery_success" notify_delivery_success ] ∧
  hooks_of registered CANCELLED "after" =
    [ mkHook "send_questionnaire" send_questionnaire ] ∧
  hooks_of registered REFUNDED "after" =
    [ mkHook "send_questionnaire" send_questionnaire ] ∧
  registered CANCELLED !! "before" = None ∧
  registered REFUNDED !! "before" = None ∧
  registered DELIVERED !! "before" = None ∧
  registered PENDING_PAYMENT = ∅.
Proof.
  unfold registered.
  generalize validate_payment_method apply_discount notify_payment_success
    validate_delivery_date notify_out_for_delivery notify_delivery_success
    send_questionnaire.
  intros f1 f2 f3 f4 f5 f6 f7. vm_compute. repeat split.
Qed.

(** ** The transition engine *)

Lemma not_in_by_compute {A} `{EqDecision A} (x : A) (l : list A) :
  bool_decide (x ∈ l) = false → x ∉ l.
Proof. intros H. by apply (bool_decide_eq_false_1 (x ∈ l)). Qed.

Lemma in_by_compute {A} `{EqDecision A} (x : A) (l : list A) :
  bool_decide (x ∈ l) = true → x ∈ l.
Proof. intros H. by apply (bool_decide_eq_true_1 (x ∈ l)). Qed.

(** C1: called with keyword arguments that bind, a target outside
    [get_possible_next_states] makes [transition_state] raise the
    [ValueError] that names the old and the target state; the world is
    returned as it was: instance, rows, log and trace (no hook was
    called, nothing was saved). *)
Theorem C1_illegal_transition_rejected (h : Hooks) (new : State)
    (kwargs : gmap string PyVal) (w : World)
    (Hcall : binds_call kwargs)
    (Hillegal : new ∉ get_possible_next_states (obj (mem w))) :
  ∃ msg,
    transition_state h new kwargs w = (Raise (ValueError msg), w) ∧
    msg = [Lit "Can't transition from "; Fmt (PyStr (value (state (obj (mem w)))));
           Lit " to "; Fmt (PyStr (value new))] ∧
    render msg =
      Some ("Can't transition from " +:+ value (state (obj (mem w))) +:+
            " to " +:+ value new).
Proof.
  eexists. split; [by apply transition_state_illegal|]. split; [done|].
  destruct (state (obj (mem w))), new; reflexivity.
Qed.

Lemma C1_illegal_transition_rejected_witness :
  ∃ msg,
    transition_state registered DELIVERED ∅ (world_of stored_order) =
      (Raise (ValueError msg), world_of stored_order) ∧
    msg = [Lit "Can't transition from "; Fmt (PyStr "pending_payment");
           Lit " to "; Fmt (PyStr "delivered")] ∧
    render msg = Some "Can't transition from pending_payment to delivered".
Proof.
  apply (C1_illegal_transition_rejected registered DELIVERED ∅ (world_of stored_order)).
  - reflexivity.
  - apply not_in_by_compute. vm_compute. reflexivity.
Defined.

(** C2: in an accepted transition, that is a call whose keyword
    arguments bind, with a legal target and a before stage that
    returned, the log table grows by exactly one record; it holds the
    state the instance had on entry, the target state and the keyword
    arguments. This is so whatever the after-hooks then do. *)
Theorem C2_one_record_per_accepted_transition (h : Hooks) (new : State)
    (kwargs : gmap string PyVal) (w w1 : World)
    (Hcall : binds_call kwargs)
    (Hlegal : new ∈ get_possible_next_states (obj (mem w)))
    (Hbefore : execute_hooks h new "before" kwargs w = (Return tt, w1)) :
  ∃ r w' log,
    transition_state h new kwargs w = (r, w') ∧
    order_logs w' = (order_logs w ++ [log])%list ∧
    old_state log = state (obj (mem w)) ∧
    new_state log = new ∧
    extra log = kwargs ∧
    order_id log = pk (obj (mem w1)) ∧
    row_state <$> orders w' !! pk (obj (mem w1)) = Some new.
Proof.
  destruct (execute_hooks h new "after" kwargs
              (commit (state (obj (mem w))) new kwargs w1)) as [r w'] eqn:Hafter.
  exists r, w'. eexists. split.
  { rewrite (transition_state_accepted _ _ _ _ _ Hcall Hlegal Hbefore). exact Hafter. }
  apply execute_hooks_frame in Hafter as (_ & Ho & Hl).
  apply execute_hooks_frame in Hbefore as (_ & _ & Hl1).
  rewrite Hl, Ho, commit_order_logs, commit_orders, Hl1, lookup_insert_eq.
  cbn. repeat split. unfold pre_save. by destruct (decide _).
Qed.

Lemma C2_one_record_per_accepted_transition_witness :
  ∃ r w' log,
    transition_state registered CANCELLED ∅ (world_of stored_order) = (r, w') ∧
    order_logs w' = ([] ++ [log])%list ∧
    old_state log = PENDING_PAYMENT ∧
    new_state log = CANCELLED ∧
    extra log = ∅ ∧
    order_id log = 1 ∧
    row_state <$> orders w' !! 1 = Some CANCELLED.
Proof.
  apply (C2_one_record_per_accepted_transition registered CANCELLED ∅
           (world_of stored_order) (world_of stored_order)).
  - reflexivity.
  - apply in_by_compute. vm_compute. reflexivity.
  - vm_compute. reflexivity.
Defined.

(** The before stage of a transition, in terms of the hook list. *)
Lemma before_stage_run (h : Hooks) (new : State) (kwargs : gmap string PyVal)
    (w : World) :
  binds kwargs →
  let before := hooks_of h new "before" in
  execute_hooks h new "before" kwargs w =
  (fst (run_hooks (env w) before kwargs (mem w)),
   mkWorld (env w) (snd (run_hooks (env w) before kwargs (mem w)))
           (orders w) (order_logs w)
           (trace w ++ calls new "before"
                        (take (called_count (env w) before kwargs (mem w)) before))%list).
Proof.
  intros Hbinds before. rewrite execute_hooks_run by done.
  apply for_each_hook_run.
Qed.

(** A legal transition one of whose before-hooks raises. *)
Lemma before_hook_raise_run (h : Hooks) (new : State) (kwargs : gmap string PyVal)
    (w : World) (k : nat) (x : Exception) (m' : Mem) :
  binds_call kwargs →
  new ∈ get_possible_next_states (obj (mem w)) →
  binds kwargs →
  raises_at (env w) (hooks_of h new "before") kwargs (mem w) k x m' →
  transition_state h new kwargs w =
  (Raise x,
   mkWorld (env w) m' (orders w) (order_logs w)
           (trace w ++ calls new "before" (take (S k) (hooks_of h new "before")))%list).
Proof.
  intros Hcall Hlegal Hbinds Hat. apply raises_at_run in Hat as [Hrun Hk].
  apply transition_state_vetoed; [done..|].
  rewrite before_stage_run by done. by rewrite Hrun, Hk.
Qed.

(** C3: in a legal transition whose keyword arguments bind, the
    before-hooks are applied one after the other, in registration
    order, to the instance as it came in (still in its old state, its
    row and the log untouched). If one of them raises, the run ends
    there: nothing was assigned, saved or recorded. If all return, the
    instance they left (with what they changed in it) gets the target
    state and is saved, so its row holds the target state, and the
    record is appended. Only then are the after-hooks applied, in
    registration order, to that saved instance. The trace lists the
    same steps in the same order. *)
Theorem C3_hooks_run_in_order_around_commit (h : Hooks) (new : State)
    (kwargs : gmap string PyVal) (w : World)
    (Hcall : binds_call kwargs)
    (Hlegal : new ∈ get_possible_next_states (obj (mem w)))
    (Hbinds : binds kwargs) :
  let before := hooks_of h new "before" in
  let after := hooks_of h new "after" in
  ∃ rb mb,
    run_hooks (env w) before kwargs (mem w) = (rb, mb) ∧
    match rb with
    | Raise x =>
        ∃ k, (k < length before)%nat ∧
          raises_at (env w) before kwargs (mem w) k x mb ∧
          transition_state h new kwargs w =
          (Raise x,
           mkWorld (env w) mb (orders w) (order_logs w)
                   (trace w ++ calls new "before" (take (S k) before))%list)
    | Return _ =>
        ∃ o row ra ma evs,
          state o = new ∧ pk o = pk (obj mb) ∧ item o = item (obj mb) ∧
          price o = price (obj mb) ∧ metadata o = metadata (obj mb) ∧
          row_state row = new ∧
          run_hooks (env w) after kwargs (mkMem o (out mb)) = (ra, ma) ∧
          transition_state h new kwargs w =
          (ra,
           mkWorld (env w) ma (<[pk o := row]> (orders w))
                   (order_logs w ++
                    [mkOrderLog (pk o) (now (env w)) (state (obj (mem w))) new kwargs])%list
                   (trace w ++ calls new "before" before ++
                    [Assigned new; Saved; Logged] ++ evs)%list) ∧
          match ra with
          | Return _ => evs = calls new "after" after
          | Raise x =>
              ∃ k, (k < length after)%nat ∧
                raises_at (env w) after kwargs (mkMem o (out mb)) k x ma ∧
                evs = calls new "after" (take (S k) after)
          end
    end.
Proof.
  intros before after.
  pose proof (before_stage_run h new kwargs w Hbinds) as Hb. cbn zeta in Hb.
  fold before in Hb.
  destruct (run_hooks (env w) before kwargs (mem w)) as [[[]|x] mb] eqn:Hrb;
    cbn [fst snd] in Hb; eexists _, mb; (split; [done|]).
  - rewrite (called_count_return _ _ _ _ _ Hrb), firstn_all in Hb.
    set (o := pre_save (now (env w)) (set_state new (obj mb))).
    destruct (run_hooks (env w) after kwargs (mkMem o (out mb))) as [ra ma] eqn:Hra.
    exists o, (row_of o), ra, ma,
      (calls new "after" (take (called_count (env w) after kwargs (mkMem o (out mb))) after)).
    assert (Hfields : state o = new ∧ pk o = pk (obj mb) ∧ item o = item (obj mb) ∧
                      price o = price (obj mb) ∧ metadata o = metadata (obj mb)).
    { unfold o, pre_save. by destruct (decide _). }
    destruct Hfields as (Hst & Hpk & Hit & Hpr & Hmd).
    do 5 (split; [done|]). split; [done|]. split; [done|]. split.
    + rewrite (transition_state_accepted _ _ _ _ _ Hcall Hlegal Hb).
      rewrite execute_hooks_run by done. fold after.
      rewrite for_each_hook_run.
      rewrite commit_env, commit_mem, commit_orders, commit_order_logs, commit_trace.
      cbn [env mem orders order_logs trace]. fold o. rewrite Hra. cbn [fst snd].
      by rewrite <- Hpk, <- !app_assoc.
    + destruct ra as [[]|x].
      * by rewrite (called_count_return _ _ _ _ _ Hra), firstn_all.
      * destruct (called_count_raise _ _ _ _ _ _ Hra) as (k & Hk & Hat).
        exists k. split; [by eapply raises_at_lt|]. split; [done|]. by rewrite Hk.
  - destruct (called_count_raise _ _ _ _ _ _ Hrb) as (k & Hk & Hat).
    rewrite Hk in Hb.
    exists k. split; [by eapply raises_at_lt|]. split; [done|].
    by apply transition_state_vetoed.
Qed.

Lemma C3_hooks_run_in_order_around_commit_witness :
  let w := world_of fresh_order in
  let kwargs := cash_discount 10 in
  let before := hooks_of registered PROCESSING "before" in
  let after := hooks_of registered PROCESSING "after" in
  ∃ rb mb,
    run_hooks (env w) before kwargs (mem w) = (rb, mb) ∧
    match rb with
    | Raise x =>
        ∃ k, (k < length before)%nat ∧
          raises_at (env w) before kwargs (mem w) k x mb ∧
          transition_state registered PROCESSING kwargs w =
          (Raise x,
           mkWorld (env w) mb (orders w) (order_logs w)
                   (trace w ++ calls PROCESSING "before" (take (S k) before))%list)
    | Return _ =>
        ∃ o row ra ma evs,
          state o = PROCESSING ∧ pk o = pk (obj mb) ∧ item o = item (obj mb) ∧
          price o = price (obj mb) ∧ metadata o = metadata (obj mb) ∧
          row_state row = PROCESSING ∧
          run_hooks (env w) after kwargs (mkMem o (out mb)) = (ra, ma) ∧
          transition_state registered PROCESSING kwargs w =
          (ra,
           mkWorld (env w) ma (<[pk o := row]> (orders w))
                   (order_logs w ++
                    [mkOrderLog (pk o) (now (env w)) (state (obj (mem w))) PROCESSING
                                kwargs])%list
                   (trace w ++ calls PROCESSING "before" before ++
                    [Assigned PROCESSING; Saved; Logged] ++ evs)%list) ∧
          match ra with
          | Return _ => evs = calls PROCESSING "after" after
          | Raise x =>
              ∃ k, (k < length after)%nat ∧
                raises_at (env w) after kwargs (mkMem o (out mb)) k x ma ∧
                evs = calls PROCESSING "after" (take (S k) after)
          end
    end.
Proof.
  apply (C3_hooks_run_in_order_around_commit registered PROCESSING
           (cash_discount 10) (world_of fresh_order)).
  - vm_compute. reflexivity.
  - apply in_by_compute. vm_compute. reflexivity.
  - vm_compute. reflexivity.
Defined.

(** What the run of C3's sample does: both before-hooks act on the
    instance (payment method noted, price discounted), the instance and
    its row get the target state, and the after-hook prints. *)
Example processing_effects :
  let w' := snd (transition_state registered PROCESSING (cash_discount 10)
                   (world_of fresh_order)) in
  fst (transition_state registered PROCESSING (cash_discount 10)
         (world_of fresh_order)) = Return tt ∧
  state (obj (mem w')) = PROCESSING ∧
  metadata (obj (mem w')) !! "payment_method" = Some (PyStr "cash") ∧
  price (obj (mem w')) = NFloat (float_lit 90) ∧
  row_state <$> orders w' !! 1 = Some PROCESSING ∧
  length (order_logs w') = 1%nat ∧
  length (out (mem w')) = 2%nat.
Proof. vm_compute. repeat split. Qed.

(** The run of C3's sample: both before-hooks, the save, the record,
    then the after-hook. *)
Example processing_trace :
  trace (snd (transition_state registered PROCESSING (cash_discount 10)
                (world_of fresh_order))) =
  [ Called PROCESSING "before" "validate_payment_method";
    Called PROCESSING "before" "apply_discount";
    Assigned PROCESSING; Saved; Logged;
    Called PROCESSING "after" "notify_payment_success" ].
Proof. vm_compute. reflexivity. Qed.

(** C4: when a before-hook of a legal transition raises (the keyword
    arguments bind in the call and are passed on to the hooks), the
    caller gets that very exception; the rows (with [state] and
    [state_changed]) and the log table are as before, and the trace
    grows only by the calls of the before-hooks up to the one that
    raised: nothing is saved, no record is written, no after-hook is
    called. *)
Theorem C4_before_hook_failure_aborts (h : Hooks) (new : State)
    (kwargs : gmap string PyVal) (w : World) (k : nat) (x : Exception) (m' : Mem)
    (Hcall : binds_call kwargs)
    (Hlegal : new ∈ get_possible_next_states (obj (mem w)))
    (Hbinds : binds kwargs)
    (Hraise : raises_at (env w) (hooks_of h new "before") kwargs (mem w) k x m') :
  ∃ w',
    transition_state h new kwargs w = (Raise x, w') ∧
    order_logs w' = order_logs w ∧
    orders w' = orders w ∧
    trace w' = (trace w ++ calls new "before"
                             (take (S k) (hooks_of h new "before")))%list.
Proof.
  eexists. split; [by apply before_hook_raise_run|]. done.
Qed.

Lemma C4_before_hook_failure_aborts_witness :
  let w := world_of stored_order in
  let x := ValueError [Lit "Invalid payment method: "; Fmt PyNone] in
  render [Lit "Invalid payment method: "; Fmt PyNone] =
    Some "Invalid payment method: None" ∧
  ∃ w',
    transition_state registered PROCESSING ∅ w = (Raise x, w') ∧
    order_logs w' = order_logs w ∧
    orders w' = orders w ∧
    trace w' = (trace w ++ calls PROCESSING "before"
                             (take 1 (hooks_of registered PROCESSING "before")))%list.
Proof.
  split; [vm_compute; reflexivity|].
  apply (C4_before_hook_failure_aborts registered PROCESSING ∅
           (world_of stored_order) 0
           (ValueError [Lit "Invalid payment method: "; Fmt PyNone])
           (mem (world_of stored_order))).
  - reflexivity.
  - apply in_by_compute. vm_compute. reflexivity.
  - vm_compute. reflexivity.
  - exists (mkHook "validate_payment_method" validate_payment_method),
      (mem (world_of stored_order)).
    split; [reflexivity|].
    split; [by rewrite (proj1 registered_hooks)|vm_compute; reflexivity].
Defined.

(** C5: when before-hook number [k] of a legal transition raises (the
    keyword arguments bind in the call and are passed on to the hooks),
    the instance the caller is left with is the one the earlier hooks
    produced, as the failing hook left it: what those hooks changed is
    not undone. *)
Theorem C5_earlier_hook_mutation_kept (h : Hooks) (new : State)
    (kwargs : gmap string PyVal) (w : World) (k : nat) (x : Exception) (m' : Mem)
    (Hcall : binds_call kwargs)
    (Hlegal : new ∈ get_possible_next_states (obj (mem w)))
    (Hbinds : binds kwargs)
    (Hraise : raises_at (env w) (hooks_of h new "before") kwargs (mem w) k x m') :
  ∃ w' hook m1,
    transition_state h new kwargs w = (Raise x, w') ∧
    run_hooks (env w) (take k (hooks_of h new "before")) kwargs (mem w) = (Return tt, m1) ∧
    hooks_of h new "before" !! k = Some hook ∧
    func_call hook (env w) kwargs m1 = (Raise x, m') ∧
    mem w' = m'.
Proof.
  destruct Hraise as (hook & m1 & Hrun & Hlk & Hhook).
  eexists _, hook, m1. split.
  - apply before_hook_raise_run; [done..|]. by exists hook, m1.
  - done.
Qed.

Lemma C5_earlier_hook_mutation_kept_witness :
  let w := world_of stored_order in
  let x := ValueError [Lit "Invalid discount percentage: "; Fmt (PyInt 150)] in
  let m' := set_metadata "payment_method" (PyStr "cash") (mem w) in
  metadata (obj (mem w)) !! "payment_method" = None ∧
  metadata (obj m') !! "payment_method" = Some (PyStr "cash") ∧
  ∃ w' hook m1,
    transition_state registered PROCESSING (cash_discount 150) w = (Raise x, w') ∧
    run_hooks (env w) (take 1 (hooks_of registered PROCESSING "before"))
              (cash_discount 150) (mem w) = (Return tt, m1) ∧
    hooks_of registered PROCESSING "before" !! 1%nat = Some hook ∧
    func_call hook (env w) (cash_discount 150) m1 = (Raise x, m') ∧
    mem w' = m'.
Proof.
  split; [vm_compute; reflexivity|]. split; [vm_compute; reflexivity|].
  apply (C5_earlier_hook_mutation_kept registered PROCESSING (cash_discount 150)
           (world_of stored_order) 1
           (ValueError [Lit "Invalid discount percentage: "; Fmt (PyInt 150)])
           (set_metadata "payment_method" (PyStr "cash") (mem (world_of stored_order)))).
  - vm_compute. reflexivity.
  - apply in_by_compute. vm_compute. reflexivity.
  - vm_compute. reflexivity.
  - exists (mkHook "apply_discount" apply_discount),
      (set_metadata "payment_method" (PyStr "cash") (mem (world_of stored_order))).
    rewrite (proj1 registered_hooks).
    split; [vm_compute; reflexivity|].
    split; [reflexivity|vm_compute; reflexivity].
Defined.

(** ** The discount *)

Lemma cash_discount_lookups (n : Z) :
  cash_discount n !! "payment_method" = Some (PyStr "cash") ∧
  cash_discount n !! "discount" = Some (PyInt n) ∧
  cash_discount n !! "order" = None ∧
  binds (cash_discount n).
Proof. unfold binds. vm_compute. repeat split. Qed.

Lemma cash_discount_binds_call (n : Z) : binds_call (cash_discount n).
Proof. unfold binds_call. vm_compute. reflexivity. Qed.

(** [1 - 10 / 100] times [100] is [90.0] in binary64. *)
Example float_nine_tenths :
  float_mul (float_lit 100)
            (float_sub (float_lit 1) (float_div (float_lit 10) (float_lit 100)))
  = float_lit 90.
Proof. vm_compute. reflexivity. Qed.

(** With an [int] price the transition of C9 goes through: the price
    becomes the [float] 90.0, both parameters are recorded and one
    record is written. *)
Example discount_on_int_price :
  ∃ w',
    transition_state registered PROCESSING (cash_discount 10) (world_of fresh_order)
      = (Return tt, w') ∧
    state (obj (mem w')) = PROCESSING ∧
    price (obj (mem w')) = NFloat (float_lit 90) ∧
    metadata (obj (mem w')) = cash_discount 10 ∧
    order_logs w' = [mkOrderLog 1 1000 PENDING_PAYMENT PROCESSING (cash_discount 10)].
Proof.
  eexists. split; [vm_compute; reflexivity|].
  cbn [mem obj state price metadata order_logs].
  split; [reflexivity|]. split; [vm_compute; reflexivity|].
  split; [vm_compute; reflexivity|]. vm_compute; reflexivity.
Qed.

(** Whatever the percentage in range, a [Decimal] price makes
    [apply_discount] raise: the product of a [Decimal] and a [float] is
    a [TypeError]. The transition is vetoed and nothing is written. *)
Lemma discount_refused_for_decimal_price (w : World) (d : Decimal) (n : Z) :
  state (obj (mem w)) = PENDING_PAYMENT →
  price (obj (mem w)) = NDecimal d →
  0 ≤ n ≤ 100 →
  ∃ w',
    transition_state registered PROCESSING (cash_discount n) w =
      (Raise (TypeError (UnsupportedOperand "*" "decimal.Decimal" "float")), w') ∧
    orders w' = orders w ∧
    order_logs w' = order_logs w ∧
    mem w' = set_metadata "payment_method" (PyStr "cash") (mem w).
Proof.
  intros Hstate Hprice Hn.
  destruct (cash_discount_lookups n) as (Hpm & Hd & Ho & Hb).
  eexists. split; [|shelve].
  apply (before_hook_raise_run registered PROCESSING (cash_discount n) w 1).
  - apply cash_discount_binds_call.
  - unfold get_possible_next_states. rewrite Hstate.
    apply in_by_compute. vm_compute. reflexivity.
  - done.
  - rewrite (proj1 registered_hooks).
    exists (mkHook "apply_discount" apply_discount),
      (set_metadata "payment_method" (PyStr "cash") (mem w)).
    split; [|split; [done|]].
    + cbn [take run_hooks func_call]. unfold validate_payment_method.
      cbn [bind_positional]. by rewrite Ho, Hpm.
    + cbn [func_call]. unfold apply_discount.
      cbn [bind_positional]. rewrite Ho, Hd. cbv [default from_option id].
      unfold between. cbn [int_le_val val_le_int].
      rewrite (proj2 (Z.leb_le 0 n)) by lia.
      rewrite (proj2 (Z.leb_le n 100)) by lia.
      cbn [one_minus_percent set_metadata obj price]. by rewrite Hprice.
  Unshelve. done.
Qed.

(** C9: the transition of the claim, tried on an order as the database
    returns it (price [Decimal("100.00")]): [apply_discount] raises a
    [TypeError], so the state stays [PENDING_PAYMENT], the price is not
    reduced and no record is written, while the payment method set by
    the first hook stays in the instance. *)
Theorem C9_discount_on_stored_order_raises :
  ∃ w',
    transition_state registered PROCESSING (cash_discount 10) (world_of stored_order) =
      (Raise (TypeError (UnsupportedOperand "*" "decimal.Decimal" "float")), w') ∧
    state (obj (mem w')) = PENDING_PAYMENT ∧
    price (obj (mem w')) = NDecimal (mkDecimal 10000 (-2)) ∧
    order_logs w' = [] ∧
    orders w' = orders (world_of stored_order) ∧
    metadata (obj (mem w')) = {[ "payment_method" := PyStr "cash" ]}.
Proof.
  eexists. split; [vm_compute; reflexivity|].
  cbn [mem obj state price metadata order_logs orders].
  repeat split; vm_compute; reflexivity.
Qed.

(** ** Members without hooks *)

Lemma execute_hooks_none (h : Hooks) (self : State) (name : string)
    (kwargs : gmap string PyVal) (w : World) :
  binds kwargs → h self !! name = None →
  execute_hooks h self name kwargs w = (Return tt, w).
Proof. unfold binds, execute_hooks. by intros -> ->. Qed.

(** When the keyword arguments bind, a legal transition to a member
    without before-hooks is committed. *)
Lemma unhooked_transition_commits (h : Hooks) (new : State)
    (kwargs : gmap string PyVal) (w : World) :
  binds_call kwargs →
  new ∈ get_possible_next_states (obj (mem w)) →
  binds kwargs →
  h new !! "before" = None →
  transition_state h new kwargs w =
  execute_hooks h new "after" kwargs (commit (state (obj (mem w))) new kwargs w).
Proof.
  intros Hcall Hlegal Hbinds Hnone. apply transition_state_accepted; [done..|].
  by apply execute_hooks_none.
Qed.

(** C10: [CANCELLED] has no before-hook and is a legal target of
    [PENDING_PAYMENT], yet a transition whose keyword arguments hold the
    key ["name"] is stopped in the hook stage: passing them on to
    [execute_hooks(self, name, ...)] raises a [TypeError], and nothing
    is committed. *)
Theorem C10_name_argument_vetoes_unhooked_transition :
  CANCELLED ∈ get_possible_next_states stored_order ∧
  registered CANCELLED !! "before" = None ∧
  ∀ h : Hooks,
    execute_hooks h CANCELLED "before" {[ "name" := PyStr "x" ]} (world_of stored_order) =
      (Raise (TypeError (MultipleValues "execute_hooks" "name")), world_of stored_order) ∧
    transition_state h CANCELLED {[ "name" := PyStr "x" ]} (world_of stored_order) =
      (Raise (TypeError (MultipleValues "execute_hooks" "name")), world_of stored_order).
Proof.
  assert (Hin : CANCELLED ∈ get_possible_next_states stored_order).
  { apply in_by_compute. vm_compute. reflexivity. }
  split; [done|]. split; [apply registered_hooks|].
  intros h.
  assert (Hex : execute_hooks h CANCELLED "before" {[ "name" := PyStr "x" ]}
                  (world_of stored_order) =
                (Raise (TypeError (MultipleValues "execute_hooks" "name")),
                 world_of stored_order)).
  { apply execute_hooks_unbound. vm_compute. reflexivity. }
  split; [done|]. apply transition_state_vetoed; [|done..].
  unfold binds_call. vm_compute. reflexivity.
Qed.

(** ** More on the enumeration and on [EnumField] *)

Lemma value_inj (s t : State) : value s = value t → s = t.
Proof. by destruct s, t. Qed.

Lemma value_not_empty (s : State) : String.eqb (value s) "" = false.
Proof. by destruct s. Qed.

Lemma State_call_Return (v : string) (s : State) :
  State_call v = Return s → value s = v.
Proof.
  unfold State_call.
  destruct (find _ members) as [e|] eqn:Hfind; [|done].
  intros [= ->]. apply find_some in Hfind as [_ He].
  by apply String.eqb_eq in He.
Qed.

Lemma is_valid_State_call (v : string) :
  is_valid (Plain (PyStr v)) = true → ∃ s, State_call v = Return s ∧ value s = v.
Proof.
  intros [s <-]%is_valid_str_spec. exists s. split; [apply State_call_value|done].
Qed.

(** X1: [x in Order.State] and [Order.State.is_valid(x)] give the same
    answer for every value [x]. *)
Theorem X1_contains_agrees_with_is_valid (a : Arg) : contains a = is_valid a.
Proof.
  destruct a as [s|v].
  - by destruct s.
  - destruct v; reflexivity.
Qed.

(** X2: [Order.State(v)] returns the member [s] exactly when [v] is the
    value of [s], so distinct members have distinct values; it raises
    exactly when [is_valid(v)] is false. *)
Theorem X2_State_call_decodes_exactly_the_values (v : string) (s : State) :
  (State_call v = Return s ↔ value s = v) ∧
  ((∃ x, State_call v = Raise x) ↔ is_valid (Plain (PyStr v)) = false).
Proof.
  split.
  - split; [apply State_call_Return|]. intros <-. apply State_call_value.
  - split.
    + intros [x Hx]. apply not_true_is_false. intros (t & Ht & _)%is_valid_State_call.
      congruence.
    + intros Hv. destruct (State_call v) as [t|x] eqn:Hcall; [|by eexists].
      apply State_call_Return in Hcall.
      assert (is_valid (Plain (PyStr v)) = true) by (apply is_valid_str_spec; eauto).
      congruence.
Qed.

Lemma to_python_cases (blank : bool) (a : Arg) :
  ∃ r logged,
    to_python blank a = (Return r, logged) ∧
    (is_none a = true → r = Plain PyNone ∧ logged = []) ∧
    (is_valid a = true → ∃ s, r = Member s ∧ arg_str a = Some (value s) ∧ logged = []) ∧
    (is_none a = false → is_valid a = false → eq_str a "" && blank = true →
       r = Plain (PyStr "") ∧ logged = []) ∧
    (is_none a = false → is_valid a = false → eq_str a "" && blank = false →
       r = a ∧ logged = [a]).
Proof.
  unfold to_python.
  destruct (is_none a) eqn:Hnone.
  { do 2 eexists. split; [done|]. split; [done|]. split; [|done].
    destruct a as [|[]]; done. }
  destruct (is_valid a) eqn:Hvalid.
  - assert (Hne : eq_str a "" = false).
    { destruct a as [s|[]]; try done.
      - apply value_not_empty.
      - apply is_valid_State_call in Hvalid as (t & _ & <-). apply value_not_empty. }
    rewrite Hne. cbn [andb negb].
    destruct a as [s|v].
    + exists (Member s), []. cbn [enum_cls].
      split; [done|]. split; [done|]. split; [by exists s|]. by split.
    + destruct v; try done.
      destruct (is_valid_State_call _ Hvalid) as (t & Hcall & Ht).
      cbn [enum_cls]. rewrite Hcall. exists (Member t), [].
      split; [done|]. split; [done|]. split; [|by split].
      intros _. exists t. by rewrite Ht.
  - destruct (eq_str a "" && blank) eqn:Hempty; cbn [negb].
    + do 2 eexists. split; [done|]. done.
    + do 2 eexists. split; [done|]. done.
Qed.

(** X3: [to_python] never raises. [None] stays [None]; a valid value
    becomes the member of that text, without a warning; the empty string
    of a blank field stays the empty string; any other value comes back
    unchanged and is logged. *)
Theorem X3_to_python_total (blank : bool) (a : Arg) :
  ∃ r logged,
    to_python blank a = (Return r, logged) ∧
    (is_none a = true → r = Plain PyNone ∧ logged = []) ∧
    (is_valid a = true → ∃ s, r = Member s ∧ arg_str a = Some (value s) ∧ logged = []) ∧
    (is_none a = false → is_valid a = false → eq_str a "" && blank = true →
       r = Plain (PyStr "") ∧ logged = []) ∧
    (is_none a = false → is_valid a = false → eq_str a "" && blank = false →
       r = a ∧ logged = [a]).
Proof. apply to_python_cases. Qed.

Lemma X3_to_python_total_witness :
  to_python false (Plain (PyStr "processing")) = (Return (Member PROCESSING), []) ∧
  to_python false (Plain (PyStr "shipped")) =
    (Return (Plain (PyStr "shipped")), [Plain (PyStr "shipped")]).
Proof.
  split.
  - destruct (X3_to_python_total false (Plain (PyStr "processing")))
      as (r & logged & Heq & _ & Hvalid & _).
    destruct (Hvalid eq_refl) as (s & -> & Hs & ->).
    injection Hs as Hs. apply (value_inj PROCESSING s) in Hs as <-. exact Heq.
  - destruct (X3_to_python_total false (Plain (PyStr "shipped")))
      as (r & logged & Heq & _ & _ & _ & Hother).
    destruct (Hother eq_refl eq_refl eq_refl) as [-> ->]. exact Heq.
Defined.

(** X4: converting the result of [to_python] once more gives the same
    value. *)
Theorem X4_to_python_idempotent (blank : bool) (a r : Arg) (logged : list Arg)
    (Hfirst : to_python blank a = (Return r, logged)) :
  fst (to_python blank r) = Return r.
Proof.
  destruct (to_python_cases blank a) as (r' & l' & Heq & Hnone & Hvalid & Hempty & Hother).
  rewrite Hfirst in Heq. injection Heq as <- <-.
  destruct (is_none a) eqn:Ha.
  { destruct (Hnone eq_refl) as [-> _]. done. }
  destruct (is_valid a) eqn:Hv.
  { destruct (Hvalid eq_refl) as (s & -> & _ & _).
    unfold to_python. cbn [is_none eq_str arg_str]. by rewrite value_not_empty. }
  destruct (eq_str a "" && blank) eqn:He.
  - destruct (Hempty eq_refl eq_refl eq_refl) as [-> _].
    apply andb_prop in He as [_ ->]. done.
  - destruct (Hother eq_refl eq_refl eq_refl) as [-> _]. by rewrite Hfirst.
Qed.

Lemma X4_to_python_idempotent_witness :
  fst (to_python true (Member DELIVERED)) = Return (Member DELIVERED).
Proof.
  apply (X4_to_python_idempotent true (Plain (PyStr "delivered")) (Member DELIVERED) []).
  reflexivity.
Defined.

(** X5: what [get_prep_value] stores for a member is its value, and
    [from_db_value] reads that back as the same member; neither logs a
    warning. [None] is stored as [NULL] and read back as [None]. *)
Theorem X5_field_round_trip (blank : bool) (s : State) :
  get_prep_value blank (Member s) = (Return (Some (value s)), []) ∧
  from_db_value blank (Some (value s)) = (Return (Member s), []) ∧
  get_prep_value blank (Plain PyNone) = (Return None, []) ∧
  from_db_value blank None = (Return (Plain PyNone), []).
Proof. by destruct blank, s. Qed.

(** X6: [get_prep_value] stores the text of every string, known to the
    enumeration or not, and raises [TypeError] for a value that is
    neither [None] nor a string; that value was logged by then. *)
Theorem X6_get_prep_value_by_type (blank : bool) (a : Arg) :
  (∀ v, arg_str a = Some v → fst (get_prep_value blank a) = Return (Some v)) ∧
  (arg_str a = None → is_none a = false →
     get_prep_value blank a = (Raise (TypeError (BadArgument "get_prep_value")), [a])).
Proof.
  split.
  - intros v Hv. unfold get_prep_value.
    destruct (to_python_cases blank a) as (r & l & -> & Hnone & Hvalid & Hempty & Hother).
    assert (Ha : is_none a = false) by (destruct a as [|[]]; done).
    destruct (is_valid a) eqn:Hval.
    { destruct (Hvalid eq_refl) as (s & -> & Hs & _).
      cbn [is_none eq_str arg_str]. rewrite value_not_empty. cbn [andb is_valid fst].
      rewrite Hs in Hv. by injection Hv as <-. }
    destruct (eq_str a "" && blank) eqn:He.
    + destruct (Hempty Ha eq_refl eq_refl) as [-> _].
      apply andb_prop in He as [He ->]. cbn.
      unfold eq_str in He. rewrite Hv in He. apply String.eqb_eq in He. by subst.
    + destruct (Hother Ha eq_refl eq_refl) as [-> _].
      rewrite Ha, He, Hv. done.
  - intros Hs Ha. unfold get_prep_value, to_python.
    assert (He : eq_str a "" = false) by (unfold eq_str; by rewrite Hs).
    assert (Hv : is_valid a = false) by (destruct a as [|[]]; done).
    rewrite Ha, He, Hv. cbn [andb negb]. by rewrite Ha, He, Hs.
Qed.

Lemma X6_get_prep_value_by_type_witness :
  fst (get_prep_value false (Plain (PyStr "shipped"))) = Return (Some "shipped") ∧
  get_prep_value false (Plain (PyInt 5)) =
    (Raise (TypeError (BadArgument "get_prep_value")), [Plain (PyInt 5)]).
Proof.
  destruct (X6_get_prep_value_by_type false (Plain (PyStr "shipped"))) as [H1 _].
  destruct (X6_get_prep_value_by_type false (Plain (PyInt 5))) as [_ H2].
  split; [apply H1; reflexivity|apply H2; reflexivity].
Defined.

Lemma X2_State_call_decodes_exactly_the_values_witness :
  State_call "refunded" = Return REFUNDED ∧
  ∃ x, State_call "shipped" = Raise x.
Proof.
  split.
  - apply (proj1 (X2_State_call_decodes_exactly_the_values "refunded" REFUNDED)).
    reflexivity.
  - apply (proj2 (X2_State_call_decodes_exactly_the_values "shipped" REFUNDED)).
    reflexivity.
Defined.

(** ** More on [HooksMixin] *)

Lemma for_each_hook_app self name kwargs l1 l2 w :
  for_each_hook self name (l1 ++ l2) kwargs w =
  (for_each_hook self name l1 kwargs ≫= λ _, for_each_hook self name l2 kwargs) w.
Proof.
  revert w. induction l1 as [|hook l1 IH]; intros w; [done|].
  cbn [app for_each_hook]. unfold mbind, M_bind in *.
  destruct (call_hook self name hook kwargs w) as [[[]|x] w1]; [|done].
  apply IH.
Qed.

Lemma for_each_hook_one self name kwargs hook w :
  for_each_hook self name [hook] kwargs w = call_hook self name hook kwargs w.
Proof.
  cbn [for_each_hook]. unfold mbind, M_bind.
  by destruct (call_hook self name hook kwargs w) as [[[]|x] w1].
Qed.

Lemma hooks_of_decorate (h : Hooks) (s s' : State) (n n' : string) (f : Hook) :
  hooks_of (decorate s n f h) s' n' =
  if decide (s' = s ∧ n' = n) then (hooks_of h s n ++ [f])%list else hooks_of h s' n'.
Proof.
  unfold hooks_of, decorate, decorator, register_hook, set_hooks.
  destruct (h s !! n) as [l|] eqn:Hl.
  - destruct (decide (s' = s)) as [->|Hs].
    + destruct (decide (n' = n)) as [->|Hn].
      * rewrite lookup_insert_eq, Hl. by rewrite decide_True.
      * rewrite lookup_insert_ne by congruence. rewrite decide_False; [done|]. by intros [_ ?].
    + rewrite decide_False; [done|]. by intros [? _].
  - destruct (decide (s = s)) as [_|]; [|done].
    destruct (decide (s' = s)) as [->|Hs].
    + destruct (decide (n' = n)) as [->|Hn].
      * rewrite !lookup_insert_eq. by rewrite decide_True.
      * rewrite !lookup_insert_ne by congruence. rewrite decide_False; [done|]. by intros [_ ?].
    + rewrite decide_False; [done|]. by intros [? _].
Qed.

(** X7: registering a function under a member and a name puts it at the
    end of the list held there and leaves every other list as it was;
    calling [register_hook] without applying the decorator adds no
    hook. *)
Theorem X7_registration_appends (h : Hooks) (s s' : State) (n n' : string) (f : Hook) :
  hooks_of (decorate s n f h) s n = (hooks_of h s n ++ [f])%list ∧
  (¬ (s' = s ∧ n' = n) → hooks_of (decorate s n f h) s' n' = hooks_of h s' n') ∧
  hooks_of (register_hook s n h) s' n' = hooks_of h s' n'.
Proof.
  split; [|split].
  - rewrite hooks_of_decorate. by rewrite decide_True.
  - intros Hne. rewrite hooks_of_decorate. by rewrite decide_False.
  - unfold hooks_of, register_hook, set_hooks.
    destruct (h s !! n) as [l|] eqn:Hl; [done|].
    destruct (decide (s' = s)) as [->|Hs]; [|done].
    destruct (decide (n' = n)) as [->|Hn].
    + by rewrite lookup_insert_eq, Hl.
    + rewrite lookup_insert_ne by congruence. done.
Qed.

Lemma X7_registration_appends_witness :
  hooks_of (decorate CANCELLED "after" (mkHook "apply_discount" apply_discount) no_hooks)
           PROCESSING "after" = hooks_of no_hooks PROCESSING "after".
Proof.
  apply (proj1 (proj2 (X7_registration_appends no_hooks CANCELLED PROCESSING
                         "after" "after" (mkHook "apply_discount" apply_discount)))).
  intros [? _]. discriminate.
Defined.

(** X8: execution follows registration: after a function is registered
    under a member and a name, [execute_hooks] for them runs what it ran
    before and then, if that returned, calls the new function. *)
Theorem X8_execute_after_registration (h : Hooks) (s : State) (n : string) (f : Hook)
    (kwargs : gmap string PyVal) (w : World) :
  execute_hooks (decorate s n f h) s n kwargs w =
  (execute_hooks h s n kwargs ≫= λ _, call_hook s n f kwargs) w.
Proof.
  destruct (bind_positional "execute_hooks" ["self"; "name"] kwargs) as [x|] eqn:Hb.
  - rewrite (execute_hooks_unbound _ _ _ _ _ _ Hb).
    unfold mbind, M_bind. by rewrite (execute_hooks_unbound _ _ _ _ _ _ Hb).
  - rewrite execute_hooks_run by done.
    rewrite hooks_of_decorate, decide_True by done.
    rewrite for_each_hook_app. unfold mbind, M_bind.
    rewrite execute_hooks_run by done.
    destruct (for_each_hook s n (hooks_of h s n) kwargs w) as [[[]|x] w1]; [|done].
    apply for_each_hook_one.
Qed.

(** ** More on the state graph *)

Lemma next_states_rank (s t : State) : t ∈ next_states s → (rank s < rank t)%nat.
Proof.
  destruct s; vm_compute next_states; intros Hin;
    repeat (apply elem_of_cons in Hin as [->|Hin]; [cbn; lia|]);
    by apply elem_of_nil in Hin.
Qed.

(** X9: every legal move takes an order further along its life, so no
    state is entered twice and a chain of legal moves has at most four
    steps. *)
Theorem X9_legal_paths_are_bounded (s : State) (l : list State)
    (Hpath : is_path s l) :
  (length l + rank s ≤ 4)%nat ∧ Forall (fun t => (rank s < rank t)%nat) l ∧ s ∉ l.
Proof.
  assert (H : (length l + rank s ≤ 4)%nat ∧ Forall (fun t => (rank s < rank t)%nat) l).
  { revert s Hpath. induction l as [|t l IH]; intros s Hpath.
    - split; [destruct s; cbn; lia|constructor].
    - destruct Hpath as [Hin Hpath]. apply next_states_rank in Hin.
      destruct (IH t Hpath) as [Hlen Hall]. split; [cbn; lia|].
      constructor; [done|]. eapply Forall_impl; [exact Hall|]. cbn. lia. }
  destruct H as [Hlen Hall]. split; [done|]. split; [done|].
  intros Hin. rewrite Forall_forall in Hall. specialize (Hall s Hin). lia.
Qed.

Lemma X9_legal_paths_are_bounded_witness :
  let l := [PROCESSING; OUT_FOR_DELIVERY; DELIVERED; REFUNDED] in
  (length l + rank PENDING_PAYMENT ≤ 4)%nat ∧
  Forall (fun t => (rank PENDING_PAYMENT < rank t)%nat) l ∧
  PENDING_PAYMENT ∉ l.
Proof.
  apply (X9_legal_paths_are_bounded PENDING_PAYMENT
           [PROCESSING; OUT_FOR_DELIVERY; DELIVERED; REFUNDED]).
  cbn. repeat split; apply in_by_compute; vm_compute; reflexivity.
Defined.

(** X10: an order in [CANCELLED] or [REFUNDED] stays there: every call
    of [transition_state], to any target and with any arguments and
    hooks, raises and changes nothing. When the keyword arguments bind,
    what it raises is the [ValueError] of an illegal transition; when
    they do not, it is the [TypeError] of the call. *)
Theorem X10_terminal_states_absorb (h : Hooks) (new : State)
    (kwargs : gmap string PyVal) (w : World)
    (Hterminal : state (obj (mem w)) = CANCELLED ∨ state (obj (mem w)) = REFUNDED) :
  ∃ x,
    transition_state h new kwargs w = (Raise x, w) ∧
    (binds_call kwargs →
     x = ValueError [Lit "Can't transition from ";
                     Fmt (PyStr (value (state (obj (mem w)))));
                     Lit " to "; Fmt (PyStr (value new))]) ∧
    (¬ binds_call kwargs →
     ∃ p, x = TypeError (MultipleValues "transition_state" p)).
Proof.
  assert (Hillegal : new ∉ get_possible_next_states (obj (mem w))).
  { unfold get_possible_next_states.
    destruct Hterminal as [-> | ->]; vm_compute default; apply not_elem_of_nil. }
  destruct (binds_call_cases kwargs) as [Hcall|[p Hp]].
  - eexists. split; [by apply transition_state_illegal|]. split; [done|].
    intros Hno. by destruct Hno.
  - eexists. split; [by apply transition_state_unbound|]. split.
    + unfold binds_call. rewrite Hp. done.
    + intros _. by exists p.
Qed.

Lemma X10_terminal_states_absorb_witness :
  let o := set_state REFUNDED stored_order in
  ∃ x,
    transition_state registered PENDING_PAYMENT ∅ (world_of o) = (Raise x, world_of o) ∧
    (binds_call ∅ →
     x = ValueError [Lit "Can't transition from ";
                     Fmt (PyStr (value (state (obj (mem (world_of o))))));
                     Lit " to "; Fmt (PyStr (value PENDING_PAYMENT))]) ∧
    (¬ binds_call ∅ →
     ∃ p, x = TypeError (MultipleValues "transition_state" p)).
Proof.
  apply (X10_terminal_states_absorb registered PENDING_PAYMENT ∅
           (world_of (set_state REFUNDED stored_order))).
  right. reflexivity.
Defined.

(** ** What the hooks of orders/hooks.py leave alone *)

Ltac hook_run H :=
  cbn [bind_positional] in H;
  repeat (case_match; simplify_eq);
  cbn [obj out pk item state state_changed _monitor_state_changed
       set_metadata set_price print];
  try done; repeat split; try done.

Lemma validate_payment_method_modest : modest validate_payment_method.
Proof. intros e kwargs m r m' H. unfold validate_payment_method in H. hook_run H. Qed.

Lemma apply_discount_modest : modest apply_discount.
Proof. intros e kwargs m r m' H. unfold apply_discount in H. hook_run H. Qed.

Lemma validate_delivery_date_modest : modest validate_delivery_date.
Proof. intros e kwargs m r m' H. unfold validate_delivery_date in H. hook_run H. Qed.

Lemma notify_payment_success_silent : silent notify_payment_success ∧ modest notify_payment_success.
Proof.
  split; intros e kwargs m r m' H; unfold notify_payment_success in H; hook_run H.
Qed.

Lemma notify_out_for_delivery_silent : silent notify_out_for_delivery ∧ modest notify_out_for_delivery.
Proof.
  split; intros e kwargs m r m' H; unfold notify_out_for_delivery in H; hook_run H.
Qed.

Lemma notify_delivery_success_silent : silent notify_delivery_success ∧ modest notify_delivery_success.
Proof.
  split; intros e kwargs m r m' H; unfold notify_delivery_success in H; hook_run H.
Qed.

Lemma send_questionnaire_silent : silent send_questionnaire ∧ modest send_questionnaire.
Proof.
  split; intros e kwargs m r m' H; unfold send_questionnaire in H; hook_run H.
Qed.

Lemma register_hook_other_names (h : Hooks) (s : State) (n : string) :
  (∀ s' name, name ≠ "before" → name ≠ "after" → h s' !! name = None) →
  n = "before" ∨ n = "after" →
  ∀ s' name, name ≠ "before" → name ≠ "after" → register_hook s n h s' !! name = None.
Proof.
  intros Hh Hn s' name Hb Ha. unfold register_hook, set_hooks.
  destruct (h s !! n); [by apply Hh|].
  destruct (decide (s' = s)) as [->|]; [|by apply Hh].
  rewrite lookup_insert_ne by (destruct Hn; congruence). by apply Hh.
Qed.

Lemma decorator_other_names (h : Hooks) (s : State) (n : string) (f : Hook) :
  (∀ s' name, name ≠ "before" → name ≠ "after" → h s' !! name = None) →
  n = "before" ∨ n = "after" →
  ∀ s' name, name ≠ "before" → name ≠ "after" → decorator s n f h s' !! name = None.
Proof.
  intros Hh Hn s' name Hb Ha. unfold decorator, set_hooks.
  destruct (decide (s' = s)) as [->|]; [|by apply Hh].
  rewrite lookup_insert_ne by (destruct Hn; congruence). by apply Hh.
Qed.

Lemma registered_other_names (s : State) (name : string) :
  name ≠ "before" → name ≠ "after" → registered s !! name = None.
Proof.
  revert s name. unfold registered, decorate.
  repeat (first [apply decorator_other_names | apply register_hook_other_names];
          [|tauto]).
  intros s name _ _. apply lookup_empty.
Qed.

(** The functions a member holds under a name, whatever the name. *)
Lemma registered_hook_cases (s : State) (name : string) (hook : Hook) :
  hook ∈ hooks_of registered s name →
  (name = "before" ∧
   (func_call hook = validate_payment_method ∨ func_call hook = apply_discount ∨
    func_call hook = validate_delivery_date)) ∨
  (name = "after" ∧
   (func_call hook = notify_payment_success ∨ func_call hook = notify_out_for_delivery ∨
    func_call hook = notify_delivery_success ∨ func_call hook = send_questionnaire)).
Proof.
  destruct registered_hooks
    as (Hpb & Hpa & Hob & Hoa & Hda & Hca & Hra & Hcb & Hrb & Hdb & Hpp).
  assert (Hnone : ∀ t n, registered t !! n = None → hook ∈ hooks_of registered t n → False).
  { intros t n Hn. unfold hooks_of. rewrite Hn. apply not_elem_of_nil. }
  destruct (decide (name = "before")) as [->|Hb];
    [|destruct (decide (name = "after")) as [->|Ha]].
  - intros Hin. left. split; [done|].
    destruct s;
      [ exfalso; apply (Hnone PENDING_PAYMENT "before"); [by rewrite Hpp|done]
      | rewrite Hpb in Hin | rewrite Hob in Hin
      | by destruct (Hnone _ _ Hdb Hin) | by destruct (Hnone _ _ Hcb Hin)
      | by destruct (Hnone _ _ Hrb Hin) ];
      clear -Hin;
      repeat (apply elem_of_cons in Hin as [->|Hin]; [cbn [func_call]; tauto|]);
      by apply elem_of_nil in Hin.
  - intros Hin. right. split; [done|].
    destruct s;
      [ exfalso; apply (Hnone PENDING_PAYMENT "after"); [by rewrite Hpp|done]
      | rewrite Hpa in Hin | rewrite Hoa in Hin | rewrite Hda in Hin
      | rewrite Hca in Hin | rewrite Hra in Hin ];
      clear -Hin;
      repeat (apply elem_of_cons in Hin as [->|Hin]; [cbn [func_call]; tauto|]);
      by apply elem_of_nil in Hin.
  - intros Hin. exfalso. apply (Hnone s name); [|done].
    by apply registered_other_names.
Qed.

(** X12: none of the functions registered in orders/hooks.py changes
    the key, the item, the state or [state_changed] of the instance; a
    function that raises leaves the instance and the output untouched;
    the functions registered under ["after"] do not change the instance
    at all. *)
Theorem X12_registered_hooks_are_modest (s : State) (name : string) (hook : Hook)
    (Hin : hook ∈ hooks_of registered s name) :
  modest (func_call hook) ∧ (name = "after" → silent (func_call hook)).
Proof.
  destruct (registered_hook_cases s name hook Hin) as [[-> Hf]|[-> Hf]].
  - split; [|done]. destruct Hf as [-> | [-> | ->]];
      [apply validate_payment_method_modest|apply apply_discount_modest
      |apply validate_delivery_date_modest].
  - destruct Hf as [->|[-> | [-> | ->]]]; split; try intros _;
      first [apply notify_payment_success_silent | apply notify_out_for_delivery_silent
            |apply notify_delivery_success_silent | apply send_questionnaire_silent].
Qed.

Lemma X12_registered_hooks_are_modest_witness :
  modest apply_discount ∧ ("before" = "after" → silent apply_discount).
Proof.
  apply (X12_registered_hooks_are_modest PROCESSING "before"
           (mkHook "apply_discount" apply_discount)).
  rewrite (proj1 registered_hooks). apply elem_of_cons. right.
  apply elem_of_cons. by left.
Defined.

Lemma registered_modest (s : State) (name : string) :
  Forall (fun hook => modest (func_call hook)) (hooks_of registered s name).
Proof.
  apply Forall_forall. intros hook Hin.
  destruct (registered_hook_cases s name hook Hin) as [[-> Hf]|[-> Hf]].
  - destruct Hf as [-> | [-> | ->]];
      [apply validate_payment_method_modest|apply apply_discount_modest
      |apply validate_delivery_date_modest].
  - destruct Hf as [->|[-> | [-> | ->]]];
      first [apply notify_payment_success_silent | apply notify_out_for_delivery_silent
            |apply notify_delivery_success_silent | apply send_questionnaire_silent].
Qed.

Lemma registered_after_silent (s : State) :
  Forall (fun hook => silent (func_call hook)) (hooks_of registered s "after").
Proof.
  apply Forall_forall. intros hook Hin.
  destruct (registered_hook_cases s "after" hook Hin) as [[? Hf]|[_ Hf]]; [done|].
  destruct Hf as [->|[-> | [-> | ->]]];
    first [apply notify_payment_success_silent | apply notify_out_for_delivery_silent
          |apply notify_delivery_success_silent | apply send_questionnaire_silent].
Qed.

Lemma run_hooks_modest e hooks kwargs m r m' :
  Forall (fun hook => modest (func_call hook)) hooks →
  run_hooks e hooks kwargs m = (r, m') →
  pk (obj m') = pk (obj m) ∧
  item (obj m') = item (obj m) ∧
  state (obj m') = state (obj m) ∧
  state_changed (obj m') = state_changed (obj m) ∧
  _monitor_state_changed (obj m') = _monitor_state_changed (obj m).
Proof.
  intros Hall. revert m. induction Hall as [|hook hooks Hm Hall IH]; intros m; cbn.
  - by intros [= _ ->].
  - destruct (func_call hook e kwargs m) as [r1 m1] eqn:Hc.
    destruct (Hm _ _ _ _ _ Hc) as (H1 & H2 & H3 & H4 & H5 & _).
    destruct r1 as [[]|x].
    + intros Hrun. destruct (IH _ Hrun) as (? & ? & ? & ? & ?).
      repeat split; congruence.
    + by intros [= _ <-].
Qed.

Lemma run_hooks_silent e hooks kwargs m r m' :
  Forall (fun hook => silent (func_call hook)) hooks →
  run_hooks e hooks kwargs m = (r, m') → obj m' = obj m.
Proof.
  intros Hall. revert m. induction Hall as [|hook hooks Hs Hall IH]; intros m; cbn.
  - by intros [= _ ->].
  - destruct (func_call hook e kwargs m) as [r1 m1] eqn:Hc.
    pose proof (Hs _ _ _ _ _ Hc) as H1.
    destruct r1 as [[]|x].
    + intros Hrun. rewrite (IH _ Hrun). done.
    + by intros [= _ <-].
Qed.

(** What [execute_hooks] does to the memory, and that it does nothing
    else. *)
Lemma execute_hooks_mem h s n kwargs w r w' :
  execute_hooks h s n kwargs w = (r, w') →
  env w' = env w ∧ orders w' = orders w ∧ order_logs w' = order_logs w ∧
  ((¬ binds kwargs ∧ w' = w ∧ ∃ x, r = Raise x) ∨
   (binds kwargs ∧ run_hooks (env w) (hooks_of h s n) kwargs (mem w) = (r, mem w'))).
Proof.
  intros Hex. pose proof (execute_hooks_frame _ _ _ _ _ _ _ Hex) as (He & Ho & Hl).
  split; [done|]. split; [done|]. split; [done|].
  destruct (bind_positional "execute_hooks" ["self"; "name"] kwargs) as [x|] eqn:Hb.
  - left. rewrite (execute_hooks_unbound _ _ _ _ _ _ Hb) in Hex.
    injection Hex as <- <-. split; [|by eauto]. unfold binds. by rewrite Hb.
  - right. split; [done|]. rewrite execute_hooks_run, for_each_hook_run in Hex by done.
    injection Hex as <- <-. cbn [mem]. by destruct (run_hooks _ _ _ _).
Qed.

Lemma transition_cases (h : Hooks) (new : State)
    (kwargs : gmap string PyVal) (w : World) :
  ∃ r w',
    transition_state h new kwargs w = (r, w') ∧
    ( (∃ x, r = Raise x ∧ orders w' = orders w ∧ order_logs w' = order_logs w)
    ∨ (∃ w1,
         binds_call kwargs ∧
         new ∈ get_possible_next_states (obj (mem w)) ∧
         execute_hooks h new "before" kwargs w = (Return tt, w1) ∧
         order_logs w' =
           (order_logs w ++ [mkOrderLog (pk (obj (mem w1))) (now (env w))
                                        (state (obj (mem w))) new kwargs])%list ∧
         orders w' =
           <[pk (obj (mem w1)) :=
               row_of (pre_save (now (env w)) (set_state new (obj (mem w1))))]>
             (orders w)) ).
Proof.
  destruct (binds_call_cases kwargs) as [Hcall|[p Hp]].
  2: { rewrite (transition_state_unbound _ _ _ _ _ Hp).
       do 2 eexists. split; [done|]. left. eauto. }
  destruct (decide (new ∈ get_possible_next_states (obj (mem w)))) as [Hlegal|Hillegal].
  - destruct (execute_hooks h new "before" kwargs w) as [[[]|x] w1] eqn:Hb.
    + rewrite (transition_state_accepted _ _ _ _ _ Hcall Hlegal Hb).
      destruct (execute_hooks h new "after" kwargs _) as [r w'] eqn:Ha.
      exists r, w'. split; [done|]. right. exists w1.
      apply execute_hooks_frame in Ha as (_ & Ho & Hl).
      apply execute_hooks_frame in Hb as (He1 & Ho1 & Hl1).
      rewrite Hl, Ho, commit_order_logs, commit_orders, Hl1, Ho1, He1. done.
    + rewrite (transition_state_vetoed _ _ _ _ _ _ Hcall Hlegal Hb).
      apply execute_hooks_frame in Hb as (_ & Ho1 & Hl1).
      do 2 eexists. split; [done|]. left. eauto.
  - rewrite (transition_state_illegal _ _ _ _ Hcall Hillegal).
    do 2 eexists. split; [done|]. left. eauto.
Qed.

(** X11: a transition either writes both the row and one record, or
    neither. It returns normally only in the first case, and then the
    target was legal and the before stage had returned. *)
Theorem X11_commit_is_all_or_nothing (h : Hooks) (new : State)
    (kwargs : gmap string PyVal) (w : World) :
  ∃ r w',
    transition_state h new kwargs w = (r, w') ∧
    ( (∃ x, r = Raise x ∧ orders w' = orders w ∧ order_logs w' = order_logs w)
    ∨ (∃ w1,
         new ∈ get_possible_next_states (obj (mem w)) ∧
         execute_hooks h new "before" kwargs w = (Return tt, w1) ∧
         order_logs w' =
           (order_logs w ++ [mkOrderLog (pk (obj (mem w1))) (now (env w))
                                        (state (obj (mem w))) new kwargs])%list ∧
         orders w' =
           <[pk (obj (mem w1)) :=
               row_of (pre_save (now (env w)) (set_state new (obj (mem w1))))]>
             (orders w)) ).
Proof.
  destruct (transition_cases h new kwargs w) as (r & w' & Hts & Hcase).
  exists r, w'. split; [done|].
  destruct Hcase as [Hraise|(w1 & _ & Hrest)]; [by left|right; by exists w1].
Qed.

(** ** The hooks one by one *)

Lemma in_strings_cash_card (v : PyVal) :
  in_strings v ["cash"; "card"] = true ↔ ∃ s, v = PyStr s ∧ (s = "cash" ∨ s = "card").
Proof.
  destruct v; cbn; try (split; [done|by intros (? & ? & _)]).
  rewrite !orb_true_iff, !String.eqb_eq. split.
  - intros [?|[?|?]]; [by eauto..|done].
  - intros (? & [= <-] & [?|?]); tauto.
Qed.

(** X13: [validate_payment_method] returns exactly when the keyword
    argument [payment_method] is the string ["cash"] or ["card"], and
    then stores it in [metadata] and changes nothing else; otherwise it
    raises the [ValueError] that shows the value it got ([None] when the
    argument is missing) and leaves the instance as it was. *)
Theorem X13_validate_payment_method_spec (e : Env) (kwargs : gmap string PyVal) (m : Mem)
    (Horder : kwargs !! "order" = None) :
  let payment_method := default PyNone (kwargs !! "payment_method") in
  (in_strings payment_method ["cash"; "card"] = true →
     validate_payment_method e kwargs m =
       (Return tt, set_metadata "payment_method" payment_method m)) ∧
  (in_strings payment_method ["cash"; "card"] = false →
     validate_payment_method e kwargs m =
       (Raise (ValueError [Lit "Invalid payment method: "; Fmt payment_method]), m)) ∧
  (in_strings payment_method ["cash"; "card"] = true ↔
     ∃ s, kwargs !! "payment_method" = Some (PyStr s) ∧ (s = "cash" ∨ s = "card")).
Proof.
  intros payment_method. unfold validate_payment_method. cbn [bind_positional].
  rewrite Horder. fold payment_method.
  split; [by intros ->|]. split; [by intros ->|].
  rewrite in_strings_cash_card. subst payment_method.
  destruct (kwargs !! "payment_method") as [v|]; cbn.
  - split; intros (s & Hs & Hc); exists s; split; congruence.
  - split; intros (s & Hs & Hc); done.
Qed.

Lemma X13_validate_payment_method_spec_witness :
  validate_payment_method sample_env {[ "payment_method" := PyStr "cheque" ]}
    (mkMem stored_order []) =
  (Raise (ValueError [Lit "Invalid payment method: "; Fmt (PyStr "cheque")]),
   mkMem stored_order []).
Proof.
  assert (Horder : ({[ "payment_method" := PyStr "cheque" ]} : gmap string PyVal) !! "order"
                   = None) by (vm_compute; reflexivity).
  apply (proj1 (proj2 (X13_validate_payment_method_spec sample_env
                         {[ "payment_method" := PyStr "cheque" ]}
                         (mkMem stored_order []) Horder))).
  vm_compute. reflexivity.
Defined.

(** X14: [apply_discount] does nothing when there is no discount (the
    argument is missing or [None]); an [int] outside 0..100 is refused
    with the [ValueError] that shows it; a string, list or dictionary is
    a [TypeError] of the comparison. In the last two cases the instance
    is left as it was. *)
Theorem X14_apply_discount_refusals (e : Env) (kwargs : gmap string PyVal) (m : Mem)
    (Horder : kwargs !! "order" = None) :
  (kwargs !! "discount" = None ∨ kwargs !! "discount" = Some PyNone →
     apply_discount e kwargs m = (Return tt, m)) ∧
  (∀ n, kwargs !! "discount" = Some (PyInt n) → n < 0 ∨ 100 < n →
     apply_discount e kwargs m =
       (Raise (ValueError [Lit "Invalid discount percentage: "; Fmt (PyInt n)]), m)) ∧
  (∀ v, kwargs !! "discount" = Some v →
     (∃ s, v = PyStr s) ∨ (∃ l, v = PyList l) ∨ (∃ d, v = PyDict d) →
     apply_discount e kwargs m =
       (Raise (TypeError (NotSupportedBetween "<=" "int" (type_name v))), m)).
Proof.
  unfold apply_discount. cbn [bind_positional]. rewrite Horder.
  split; [|split].
  - by intros [-> | ->].
  - intros n -> Hn. cbv [default from_option id]. unfold between.
    cbn [int_le_val val_le_int].
    destruct (Z.leb_spec 0 n); [|done].
    destruct (Z.leb_spec n 100); [lia|done].
  - intros v -> [[s ->]|[[l ->]|[d ->]]]; done.
Qed.

Lemma X14_apply_discount_refusals_witness :
  apply_discount sample_env {[ "discount" := PyInt 150 ]} (mkMem stored_order []) =
  (Raise (ValueError [Lit "Invalid discount percentage: "; Fmt (PyInt 150)]),
   mkMem stored_order []).
Proof.
  assert (Horder : ({[ "discount" := PyInt 150 ]} : gmap string PyVal) !! "order" = None)
    by (vm_compute; reflexivity).
  apply (proj1 (proj2 (X14_apply_discount_refusals sample_env {[ "discount" := PyInt 150 ]}
                         (mkMem stored_order []) Horder)) 150).
  - vm_compute. reflexivity.
  - right. lia.
Defined.

(** X15: [apply_discount] with an [int] percentage from 0 to 100. On a
    [float] price, or an [int] price that fits a [float], the price
    becomes the [float] product [price * (1 - n / 100)], the percentage
    is stored in [metadata] and nothing else changes. On a [Decimal]
    price the product is a [TypeError] and the instance is left as it
    was. *)
Theorem X15_apply_discount_in_range (e : Env) (kwargs : gmap string PyVal) (m : Mem)
    (n : Z)
    (Horder : kwargs !! "order" = None)
    (Hdiscount : kwargs !! "discount" = Some (PyInt n))
    (Hrange : 0 ≤ n ≤ 100) :
  let factor := float_sub (float_lit 1) (float_div (float_lit n) (float_lit 100)) in
  (∀ d, price (obj m) = NDecimal d →
     apply_discount e kwargs m =
       (Raise (TypeError (UnsupportedOperand "*" "decimal.Decimal" "float")), m)) ∧
  (∀ x, price (obj m) = NFloat x →
     apply_discount e kwargs m =
       (Return tt, set_metadata "discount" (PyInt n)
                     (set_price (NFloat (float_mul x factor)) m))) ∧
  (∀ p x, price (obj m) = NInt p → float_of_int p = Some x →
     apply_discount e kwargs m =
       (Return tt, set_metadata "discount" (PyInt n)
                     (set_price (NFloat (float_mul x factor)) m))).
Proof.
  intros factor. unfold apply_discount. cbn [bind_positional].
  rewrite Horder, Hdiscount. cbv [default from_option id]. unfold between.
  cbn [int_le_val val_le_int].
  rewrite (proj2 (Z.leb_le 0 n)) by lia.
  rewrite (proj2 (Z.leb_le n 100)) by lia.
  cbn [one_minus_percent]. fold factor.
  split; [|split].
  - by intros d ->.
  - by intros x ->.
  - intros p x -> Hx. cbn [mul_float]. by rewrite Hx.
Qed.

Lemma X15_apply_discount_in_range_witness :
  apply_discount sample_env (cash_discount 10) (mkMem stored_order []) =
  (Raise (TypeError (UnsupportedOperand "*" "decimal.Decimal" "float")),
   mkMem stored_order []).
Proof.
  refine (proj1 (X15_apply_discount_in_range sample_env (cash_discount 10)
                   (mkMem stored_order []) 10 _ _ _) (mkDecimal 10000 (-2)) _).
  - apply cash_discount_lookups.
  - apply cash_discount_lookups.
  - lia.
  - reflexivity.
Defined.

(** X16: [validate_delivery_date] returns exactly when [delivery_date]
    is a string that [fromisoformat] reads as a naive date not before
    now, and then stores the string in [metadata]; a missing or [None]
    date is refused with "Delivery date is required". *)
Theorem X16_validate_delivery_date_spec (e : Env) (kwargs : gmap string PyVal) (m : Mem)
    (Horder : kwargs !! "order" = None) :
  (∀ s d, kwargs !! "delivery_date" = Some (PyStr s) → fromisoformat e s = Some d →
     aware d = false → now e ≤ instant d →
     validate_delivery_date e kwargs m =
       (Return tt, set_metadata "delivery_date" (PyStr s) m)) ∧
  (∀ m', validate_delivery_date e kwargs m = (Return tt, m') →
     ∃ s d, kwargs !! "delivery_date" = Some (PyStr s) ∧ fromisoformat e s = Some d ∧
            aware d = false ∧ now e ≤ instant d) ∧
  (kwargs !! "delivery_date" = None ∨ kwargs !! "delivery_date" = Some PyNone →
     validate_delivery_date e kwargs m =
       (Raise (ValueError [Lit "Delivery date is required"]), m)).
Proof.
  unfold validate_delivery_date. cbn [bind_positional]. rewrite Horder.
  split; [|split].
  - intros s d -> Hd Ha Hn. cbn [default from_option id parse_date].
    rewrite Hd, Ha. destruct (Z.ltb_spec (instant d) (now e)); [lia|done].
  - intros m'. destruct (kwargs !! "delivery_date") as [v|]; [|done].
    cbv [default from_option id]. destruct v; try done. cbn [parse_date].
    destruct (fromisoformat e s) as [d|] eqn:Hd; [|done].
    destruct (aware d) eqn:Ha; [done|].
    destruct (Z.ltb_spec (instant d) (now e)); [done|].
    intros _. by exists s, d.
  - by intros [-> | ->].
Qed.

Lemma X16_validate_delivery_date_spec_witness :
  validate_delivery_date sample_env ∅ (mkMem stored_order []) =
  (Raise (ValueError [Lit "Delivery date is required"]), mkMem stored_order []).
Proof.
  assert (Horder : (∅ : gmap string PyVal) !! "order" = None) by reflexivity.
  apply (proj2 (proj2 (X16_validate_delivery_date_spec sample_env ∅
                         (mkMem stored_order []) Horder))).
  left. reflexivity.
Defined.

(** ** Transitions with the hooks of orders/hooks.py *)

Lemma snoc_ne {A} (l : list A) (x : A) : (l ++ [x])%list ≠ l.
Proof.
  intros H. apply (f_equal length) in H. rewrite length_app in H. cbn in H. lia.
Qed.

Lemma legal_target_differs (o : Order) (new : State) :
  new ∈ get_possible_next_states o → new ≠ state o.
Proof.
  intros Hin%next_states_rank ->. lia.
Qed.

(** A transition with the registered hooks: what it leaves when it
    does not commit, and what it has written when it does. *)
Lemma registered_step (new : State) (kwargs : gmap string PyVal) (w : World) :
  ∃ r w',
    transition_state registered new kwargs w = (r, w') ∧
    env w' = env w ∧
    ( (∃ x, r = Raise x ∧ orders w' = orders w ∧ order_logs w' = order_logs w ∧
         pk (obj (mem w')) = pk (obj (mem w)) ∧
         state (obj (mem w')) = state (obj (mem w)) ∧
         state_changed (obj (mem w')) = state_changed (obj (mem w)) ∧
         _monitor_state_changed (obj (mem w')) = _monitor_state_changed (obj (mem w)))
    ∨ (∃ w1,
         new ∈ get_possible_next_states (obj (mem w)) ∧
         execute_hooks registered new "before" kwargs w = (Return tt, w1) ∧
         pk (obj (mem w1)) = pk (obj (mem w)) ∧
         state (obj (mem w1)) = state (obj (mem w)) ∧
         _monitor_state_changed (obj (mem w1)) = _monitor_state_changed (obj (mem w)) ∧
         obj (mem w') = pre_save (now (env w)) (set_state new (obj (mem w1))) ∧
         order_logs w' =
           (order_logs w ++ [mkOrderLog (pk (obj (mem w))) (now (env w))
                                        (state (obj (mem w))) new kwargs])%list ∧
         orders w' = <[pk (obj (mem w)) := row_of (obj (mem w'))]> (orders w)) ).
Proof.
  destruct (binds_call_cases kwargs) as [Hcall|[p Hp]].
  2: { rewrite (transition_state_unbound _ _ _ _ _ Hp).
       do 2 eexists. split; [done|]. split; [done|]. left. by eauto 10. }
  destruct (transition_cases registered new kwargs w) as (r & w' & Hts & Hcase).
  exists r, w'. split; [done|].
  destruct Hcase as [(x & -> & Ho & Hl)|(w1 & _ & Hlegal & Hb & Hl & Ho)].
  - (* not committed *)
    destruct (decide (new ∈ get_possible_next_states (obj (mem w)))) as [Hlegal|Hillegal].
    + destruct (execute_hooks registered new "before" kwargs w) as [[[]|y] w1] eqn:Hb.
      * exfalso. destruct (transition_cases registered new kwargs w)
          as (r2 & w2 & Hts2 & _).
        rewrite (transition_state_accepted _ _ _ _ _ Hcall Hlegal Hb) in Hts.
        apply execute_hooks_frame in Hts as (_ & _ & Hl2).
        rewrite commit_order_logs in Hl2.
        apply execute_hooks_frame in Hb as (_ & _ & Hl1).
        rewrite Hl1, <- Hl in Hl2. symmetry in Hl2. by apply snoc_ne in Hl2.
      * rewrite (transition_state_vetoed _ _ _ _ _ _ Hcall Hlegal Hb) in Hts.
        injection Hts as <- <-.
        apply execute_hooks_mem in Hb as (He & _ & _ & [(_ & -> & _)|(_ & Hrun)]).
        { split; [done|]. left. by eauto 10. }
        apply run_hooks_modest in Hrun as (? & ? & ? & ? & ?);
          [|apply registered_modest].
        split; [done|]. left. by eauto 10.
    + rewrite (transition_state_illegal _ _ _ _ Hcall Hillegal) in Hts.
      injection Hts as <- <-. split; [done|]. left. by eauto 10.
  - (* committed *)
    rewrite (transition_state_accepted _ _ _ _ _ Hcall Hlegal Hb) in Hts.
    pose proof Hb as Hb'.
    apply execute_hooks_mem in Hb' as (He1 & _ & _ & [(_ & _ & y & ?)|(_ & Hrun)]); [done|].
    apply run_hooks_modest in Hrun as (Hpk & _ & Hst & _ & Hmon);
      [|apply registered_modest].
    assert (Hobj : obj (mem (commit (state (obj (mem w))) new kwargs w1)) =
                   pre_save (now (env w)) (set_state new (obj (mem w1)))).
    { unfold commit, save, logs_create. cbn. by rewrite He1. }
    pose proof Hts as Hts'.
    apply execute_hooks_mem in Hts' as (He & _ & _ & [(_ & Hw & y & ?)|(_ & Hrun)]).
    + subst w'. split; [done|]. right. exists w1.
      rewrite Hl, Ho, Hpk, Hobj. done.
    + apply run_hooks_silent in Hrun; [|apply registered_after_silent].
      split; [by rewrite He|]. right. exists w1.
      rewrite Hl, Ho, Hpk, Hrun, Hobj. done.
Qed.

Lemma pre_save_fields (t : Z) (o : Order) :
  pk (pre_save t o) = pk o ∧ state (pre_save t o) = state o ∧
  _monitor_state_changed (pre_save t o) = state o ∧
  (_monitor_state_changed o ≠ state o → state_changed (pre_save t o) = t).
Proof. unfold pre_save. destruct (decide _); cbn; repeat split; try done. Qed.

(** X17: with the registered hooks, whenever a transition has written a
    record, the instance is still the same order, its state and the
    state of its row are the target, the monitor remembers the target,
    and (the monitor being up to date on entry) [state_changed] of the
    instance is the time of the save. *)
Theorem X17_committed_row_matches_instance (new : State) (kwargs : gmap string PyVal)
    (w w' : World) (r : Outcome unit)
    (Hrun : transition_state registered new kwargs w = (r, w'))
    (Hcommitted : order_logs w' ≠ order_logs w) :
  pk (obj (mem w')) = pk (obj (mem w)) ∧
  state (obj (mem w')) = new ∧
  row_state <$> orders w' !! pk (obj (mem w')) = Some new ∧
  _monitor_state_changed (obj (mem w')) = new ∧
  (_monitor_state_changed (obj (mem w)) = state (obj (mem w)) →
     state_changed (obj (mem w')) = now (env w)).
Proof.
  destruct (registered_step new kwargs w) as (r2 & w2 & Hts & _ & Hcase).
  rewrite Hrun in Hts. injection Hts as <- <-.
  destruct Hcase as [(x & _ & _ & Hl & _)|(w1 & Hlegal & _ & Hpk & Hst & Hmon & Hobj & _ & Ho)];
    [done|].
  destruct (pre_save_fields (now (env w)) (set_state new (obj (mem w1))))
    as (Hpk2 & Hst2 & Hmon2 & Hch).
  assert (Hpk' : pk (obj (mem w')) = pk (obj (mem w))) by (by rewrite Hobj, Hpk2).
  assert (Hst' : state (obj (mem w')) = new) by (by rewrite Hobj, Hst2).
  split; [done|]. split; [done|].
  split; [by rewrite Ho, Hpk', lookup_insert_eq; cbn; rewrite Hst'|].
  split; [by rewrite Hobj, Hmon2|].
  intros Hm. rewrite Hobj. apply Hch. cbn. rewrite Hmon, Hm.
  intros Heq. by apply (legal_target_differs _ _ Hlegal).
Qed.

Lemma X17_committed_row_matches_instance_witness :
  let w := world_of stored_order in
  let w' := snd (transition_state registered CANCELLED ∅ w) in
  pk (obj (mem w')) = pk (obj (mem w)) ∧
  state (obj (mem w')) = CANCELLED ∧
  row_state <$> orders w' !! pk (obj (mem w')) = Some CANCELLED ∧
  _monitor_state_changed (obj (mem w')) = CANCELLED ∧
  (_monitor_state_changed (obj (mem w)) = state (obj (mem w)) →
     state_changed (obj (mem w')) = now (env w)).
Proof.
  apply (X17_committed_row_matches_instance CANCELLED ∅ (world_of stored_order)
           (snd (transition_state registered CANCELLED ∅ (world_of stored_order)))
           (fst (transition_state registered CANCELLED ∅ (world_of stored_order)))).
  - apply surjective_pairing.
  - vm_compute. discriminate.
Defined.

Lemma linked_snoc (l : list OrderLog) (x : OrderLog) :
  linked l → (∀ a, last l = Some a → new_state a = old_state x) → linked (l ++ [x]).
Proof.
  induction l as [|a l IH]; intros Hl Hlast; cbn; [done|].
  destruct Hl as [Hnext Hl]. destruct l as [|b l].
  - cbn. split; [|done]. by apply Hlast.
  - split; [done|]. apply IH; [done|]. intros c Hc. by apply Hlast.
Qed.

Lemma consistent_step (new : State) (kwargs : gmap string PyVal) (w : World) :
  consistent w → consistent (snd (transition_state registered new kwargs w)).
Proof.
  intros [Hrow Hmon Hlegal Hlinked Hcur].
  destruct (registered_step new kwargs w) as (r & w' & -> & _ & Hcase). cbn [snd].
  destruct Hcase as [(x & _ & Ho & Hl & Hpk & Hst & _ & Hm)
                    |(w1 & Hin & _ & Hpk1 & Hst1 & Hmon1 & Hobj & Hl & Ho)].
  - assert (Hlogs : logs w' = logs w) by (unfold logs; by rewrite Hl, Hpk).
    split; rewrite ?Hlogs, ?Ho, ?Hpk, ?Hst, ?Hm; done.
  - destruct (pre_save_fields (now (env w)) (set_state new (obj (mem w1))))
      as (Hpk2 & Hst2 & Hmon2 & _).
    assert (Hpk' : pk (obj (mem w')) = pk (obj (mem w))) by (by rewrite Hobj, Hpk2).
    assert (Hst' : state (obj (mem w')) = new) by (by rewrite Hobj, Hst2).
    assert (Hlogs : logs w' =
              (logs w ++ [mkOrderLog (pk (obj (mem w))) (now (env w))
                                     (state (obj (mem w))) new kwargs])%list).
    { unfold logs. rewrite Hl, Hpk', List.filter_app. cbn.
      by rewrite bool_decide_eq_true_2. }
    split.
    + by rewrite Ho, Hpk', lookup_insert_eq.
    + by rewrite Hobj, Hmon2, Hst2.
    + rewrite Hlogs. apply Forall_app. split; [done|]. by repeat constructor.
    + rewrite Hlogs. by apply linked_snoc.
    + rewrite Hlogs, last_snoc. by intros l [= <-].
Qed.

(** X18: the instance, its row and its records stay in agreement
    through any series of transition attempts with the registered
    hooks, accepted or not: the row holds the state of the instance, the
    monitor is up to date, every record of the order is a legal move,
    each record starts in the state the previous one ended in, and the
    last record ends in the current state. *)
Theorem X18_history_stays_consistent (l : list (State * gmap string PyVal)) (w : World)
    (Hw : consistent w) :
  consistent (attempts l w).
Proof.
  revert w Hw. induction l as [|[target kwargs] l IH]; intros w Hw; [done|].
  cbn [attempts]. apply IH. by apply consistent_step.
Qed.

Lemma X18_history_stays_consistent_witness :
  consistent (attempts [ (PROCESSING, ∅); (PROCESSING, cash_discount 10);
                         (CANCELLED, ∅); (DELIVERED, ∅) ]
                       (world_of fresh_order)).
Proof.
  apply X18_history_stays_consistent.
  split; [reflexivity|reflexivity|constructor|exact I|by intros l [=]].
Defined.

Lemma registered_before (s : State) :
  hooks_of registered s "before" =
  match s with
  | PROCESSING => [ mkHook "validate_payment_method" validate_payment_method;
                    mkHook "apply_discount" apply_discount ]
  | OUT_FOR_DELIVERY => [ mkHook "validate_delivery_date" validate_delivery_date ]
  | _ => []
  end.
Proof.
  destruct registered_hooks
    as (Hpb & _ & Hob & _ & _ & _ & _ & Hcb & Hrb & Hdb & Hpp).
  destruct s; [unfold hooks_of; by rewrite Hpp, lookup_empty|exact Hpb|exact Hob|..];
    unfold hooks_of; [by rewrite Hdb|by rewrite Hcb|by rewrite Hrb].
Qed.

Lemma registered_after (s : State) :
  hooks_of registered s "after" =
  match s with
  | PENDING_PAYMENT => []
  | PROCESSING => [ mkHook "notify_payment_success" notify_payment_success ]
  | OUT_FOR_DELIVERY => [ mkHook "notify_out_for_delivery" notify_out_for_delivery ]
  | DELIVERED => [ mkHook "notify_delivery_success" notify_delivery_success ]
  | CANCELLED | REFUNDED => [ mkHook "send_questionnaire" send_questionnaire ]
  end.
Proof.
  destruct registered_hooks
    as (_ & Hpa & _ & Hoa & Hda & Hca & Hra & _ & _ & _ & Hpp).
  destruct s; [unfold hooks_of; by rewrite Hpp, lookup_empty|exact Hpa|exact Hoa
              |exact Hda|exact Hca|exact Hra].
Qed.

Lemma validate_payment_method_returns e kwargs m m1 :
  validate_payment_method e kwargs m = (Return tt, m1) →
  ∃ s, kwargs !! "payment_method" = Some (PyStr s) ∧ (s = "cash" ∨ s = "card") ∧
       m1 = set_metadata "payment_method" (PyStr s) m.
Proof.
  unfold validate_payment_method. cbn [bind_positional].
  destruct (kwargs !! "order"); [done|].
  destruct (in_strings _ _) eqn:Hin; [|done]. cbn [negb]. intros [= <-].
  apply in_strings_cash_card in Hin as (s & Hs & Hc). exists s.
  destruct (kwargs !! "payment_method") as [v|]; cbn in Hs; [|done].
  subst v. done.
Qed.

Lemma validate_delivery_date_returns e kwargs m m1 :
  validate_delivery_date e kwargs m = (Return tt, m1) →
  ∃ s d, kwargs !! "delivery_date" = Some (PyStr s) ∧ fromisoformat e s = Some d.
Proof.
  unfold validate_delivery_date. cbn [bind_positional].
  destruct (kwargs !! "order"); [done|].
  destruct (kwargs !! "delivery_date") as [v|]; [|done].
  cbv [default from_option id]. destruct v; try done. cbn [parse_date].
  destruct (fromisoformat e s) as [d|] eqn:Hd; [|done]. intros _. by exists s, d.
Qed.

(** X19: with the registered hooks, a transition that writes no record
    writes no row either, and leaves the instance and the output as they
    were, with one exception: a transition to [PROCESSING] stopped by
    [apply_discount] has already stored the accepted payment method in
    [metadata] of the instance in memory. *)
Theorem X19_vetoed_transition_leaves_little (new : State) (kwargs : gmap string PyVal)
    (w w' : World) (r : Outcome unit)
    (Hrun : transition_state registered new kwargs w = (r, w'))
    (Hnot : order_logs w' = order_logs w) :
  (∃ x, r = Raise x) ∧
  orders w' = orders w ∧
  (mem w' = mem w ∨
   (new = PROCESSING ∧
    ∃ s, kwargs !! "payment_method" = Some (PyStr s) ∧ (s = "cash" ∨ s = "card") ∧
         mem w' = set_metadata "payment_method" (PyStr s) (mem w))).
Proof.
  destruct (transition_cases registered new kwargs w) as (r2 & w2 & Hts & Hcase).
  rewrite Hrun in Hts. injection Hts as <- <-.
  destruct Hcase as [(x & -> & Ho & _)|(w1 & _ & _ & Hb & Hl & _)].
  2: { apply execute_hooks_frame in Hb as (_ & _ & Hl1).
       rewrite Hnot in Hl. symmetry in Hl. by apply snoc_ne in Hl. }
  split; [by eauto|]. split; [done|].
  destruct (binds_call_cases kwargs) as [Hcall|[p Hp]].
  2: { rewrite (transition_state_unbound _ _ _ _ _ Hp) in Hrun.
       injection Hrun as _ <-. by left. }
  destruct (decide (new ∈ get_possible_next_states (obj (mem w)))) as [Hlegal|Hillegal].
  2: { rewrite (transition_state_illegal _ _ _ _ Hcall Hillegal) in Hrun.
       injection Hrun as _ <-. by left. }
  destruct (execute_hooks registered new "before" kwargs w) as [[[]|y] w1] eqn:Hb.
  { rewrite (transition_state_accepted _ _ _ _ _ Hcall Hlegal Hb) in Hrun.
    apply execute_hooks_frame in Hrun as (_ & _ & Hl2).
    apply execute_hooks_frame in Hb as (_ & _ & Hl1).
    rewrite commit_order_logs, Hl1, Hnot in Hl2. symmetry in Hl2. by apply snoc_ne in Hl2. }
  rewrite (transition_state_vetoed _ _ _ _ _ _ Hcall Hlegal Hb) in Hrun.
  injection Hrun as _ <-.
  apply execute_hooks_mem in Hb as (_ & _ & _ & [(_ & -> & _)|(_ & Hmem)]); [by left|].
  rewrite registered_before in Hmem.
  destruct new; cbn [run_hooks func_call] in Hmem; try done.
  - destruct (validate_payment_method (env w) kwargs (mem w)) as [[[]|z] m1] eqn:Hv.
    + apply validate_payment_method_returns in Hv as (s & Hs & Hc & ->).
      destruct (apply_discount (env w) kwargs _) as [[[]|z] m2] eqn:Ha; [done|].
      injection Hmem as _ <-.
      destruct (apply_discount_modest _ _ _ _ _ Ha) as (_ & _ & _ & _ & _ & Hsame).
      rewrite (Hsame z eq_refl). right. split; [done|]. by exists s.
    + injection Hmem as _ <-.
      destruct (validate_payment_method_modest _ _ _ _ _ Hv) as (_ & _ & _ & _ & _ & Hsame).
      left. by apply (Hsame z).
  - destruct (validate_delivery_date (env w) kwargs (mem w)) as [[[]|z] m1] eqn:Hv; [done|].
    injection Hmem as _ <-.
    destruct (validate_delivery_date_modest _ _ _ _ _ Hv) as (_ & _ & _ & _ & _ & Hsame).
    left. by apply (Hsame z).
Qed.

Lemma X19_vetoed_transition_leaves_little_witness :
  let w := world_of stored_order in
  let r := fst (transition_state registered PROCESSING (cash_discount 150) w) in
  let w' := snd (transition_state registered PROCESSING (cash_discount 150) w) in
  (∃ x, r = Raise x) ∧
  orders w' = orders w ∧
  (mem w' = mem w ∨
   (PROCESSING = PROCESSING ∧
    ∃ s, cash_discount 150 !! "payment_method" = Some (PyStr s) ∧
         (s = "cash" ∨ s = "card") ∧
         mem w' = set_metadata "payment_method" (PyStr s) (mem w))).
Proof.
  apply (X19_vetoed_transition_leaves_little PROCESSING (cash_discount 150)
           (world_of stored_order)
           (snd (transition_state registered PROCESSING (cash_discount 150)
                   (world_of stored_order)))
           (fst (transition_state registered PROCESSING (cash_discount 150)
                   (world_of stored_order)))).
  - apply surjective_pairing.
  - vm_compute. reflexivity.
Defined.

(** X20: with the registered hooks, keyword arguments that bind and
    none of them called [order], a transition that got past the before
    stage writes its record and returns normally: what the after-hooks
    need ([payment_method], a readable [delivery_date]) was checked by
    the before-hooks. The one exception is a transition to
    [OUT_FOR_DELIVERY] on a platform that rejects the locale of the
    environment: [notify_out_for_delivery] then raises [locale.Error],
    after the record was written. *)
Theorem X20_accepted_transition_returns (new : State) (kwargs : gmap string PyVal)
    (w w1 : World)
    (Hcall : binds_call kwargs)
    (Horder : kwargs !! "order" = None)
    (Hlegal : new ∈ get_possible_next_states (obj (mem w)))
    (Hbefore : execute_hooks registered new "before" kwargs w = (Return tt, w1)) :
  ∃ w',
    transition_state registered new kwargs w =
      (if bool_decide (new = OUT_FOR_DELIVERY) && negb (setlocale (env w))
       then Raise LocaleError else Return tt, w') ∧
    order_logs w' =
      (order_logs w ++ [mkOrderLog (pk (obj (mem w1))) (now (env w))
                                   (state (obj (mem w))) new kwargs])%list.
Proof.
  rewrite (transition_state_accepted _ _ _ _ _ Hcall Hlegal Hbefore).
  apply execute_hooks_mem in Hbefore
    as (He & _ & Hl1 & [(_ & _ & y & ?)|(Hbinds & Hrun)]); [done|].
  rewrite execute_hooks_run, for_each_hook_run by done.
  eexists. split; [|shelve].
  f_equal.
  rewrite commit_env, He. rewrite registered_after. rewrite registered_before in Hrun.
  destruct new;
    [rewrite bool_decide_eq_false_2 by done
    |rewrite bool_decide_eq_false_2 by done
    |rewrite bool_decide_eq_true_2 by done
    |rewrite bool_decide_eq_false_2 by done..];
    cbn [andb run_hooks func_call] in *; try done.
  - destruct (validate_payment_method (env w) kwargs (mem w)) as [[[]|z] m1] eqn:Hv;
      [|done].
    apply validate_payment_method_returns in Hv as (s & Hs & _ & _).
    unfold notify_payment_success. cbn [bind_positional]. by rewrite Horder, Hs.
  - destruct (validate_delivery_date (env w) kwargs (mem w)) as [[[]|z] m1] eqn:Hv;
      [|done].
    apply validate_delivery_date_returns in Hv as (s & d & Hs & Hd).
    unfold notify_out_for_delivery. cbn [bind_positional].
    rewrite Horder, Hs.
    destruct (setlocale (env w)); cbn [negb]; [|done].
    cbn [parse_date]. by rewrite Hd.
  - unfold notify_delivery_success. cbn [bind_positional]. by rewrite Horder.
  - unfold send_questionnaire. cbn [bind_positional]. by rewrite Horder.
  - unfold send_questionnaire. cbn [bind_positional]. by rewrite Horder.
  Unshelve. cbn [order_logs]. by rewrite commit_order_logs, Hl1, He.
Qed.

Lemma X20_accepted_transition_returns_witness :
  let w := world_of fresh_order in
  let w1 := snd (execute_hooks registered PROCESSING "before" (cash_discount 10) w) in
  ∃ w',
    transition_state registered PROCESSING (cash_discount 10) w =
      (if bool_decide (PROCESSING = OUT_FOR_DELIVERY) && negb (setlocale (env w))
       then Raise LocaleError else Return tt, w') ∧
    order_logs w' =
      (order_logs w ++ [mkOrderLog (pk (obj (mem w1))) (now (env w))
                                   (state (obj (mem w))) PROCESSING
                                   (cash_discount 10)])%list.
Proof.
  refine (X20_accepted_transition_returns PROCESSING (cash_discount 10)
            (world_of fresh_order)
            (snd (execute_hooks registered PROCESSING "before" (cash_discount 10)
                    (world_of fresh_order))) _ _ _ _).
  - apply cash_discount_binds_call.
  - apply cash_discount_lookups.
  - apply in_by_compute. vm_compute. reflexivity.
  - vm_compute. reflexivity.
Defined.

(** X21: a keyword argument called [order] collides with the first
    parameter of every registered function. For a legal target without
    before-hooks ([DELIVERED], [CANCELLED], [REFUNDED]) and keyword
    arguments that otherwise bind, in the call and in [execute_hooks],
    the collision shows only in the after-hook: the transition raises
    [TypeError] although the row and the record have been written. *)
Theorem X21_order_argument_fails_after_commit (new : State) (kwargs : gmap string PyVal)
    (w : World) (v : PyVal)
    (Hcall : binds_call kwargs)
    (Hnew : new = DELIVERED ∨ new = CANCELLED ∨ new = REFUNDED)
    (Hlegal : new ∈ get_possible_next_states (obj (mem w)))
    (Hbinds : binds kwargs)
    (Hkey : kwargs !! "order" = Some v) :
  ∃ f w',
    transition_state registered new kwargs w =
      (Raise (TypeError (MultipleValues f "order")), w') ∧
    order_logs w' =
      (order_logs w ++ [mkOrderLog (pk (obj (mem w))) (now (env w))
                                   (state (obj (mem w))) new kwargs])%list ∧
    row_state <$> orders w' !! pk (obj (mem w)) = Some new.
Proof.
  assert (Hb : execute_hooks registered new "before" kwargs w = (Return tt, w)).
  { rewrite execute_hooks_run by done. rewrite registered_before.
    by destruct Hnew as [-> | [-> | ->]]. }
  rewrite (transition_state_accepted _ _ _ _ _ Hcall Hlegal Hb).
  rewrite execute_hooks_run by done. rewrite registered_after.
  assert (Hrow : row_state <$> orders (commit (state (obj (mem w))) new kwargs w)
                   !! pk (obj (mem w)) = Some new).
  { rewrite commit_orders, lookup_insert_eq. cbn. unfold pre_save.
    by destruct (decide _). }
  destruct Hnew as [-> | [-> | ->]]; rewrite for_each_hook_one;
    unfold call_hook; cbn [func_call];
    [unfold notify_delivery_success|unfold send_questionnaire..];
    cbn [bind_positional]; rewrite Hkey;
    eexists _, _; (split; [reflexivity|]);
    cbn [order_logs orders set_mem note]; by rewrite commit_order_logs.
Qed.

Lemma X21_order_argument_fails_after_commit_witness :
  let w := world_of stored_order in
  let kwargs : gmap string PyVal := {[ "order" := PyInt 7 ]} in
  ∃ f w',
    transition_state registered CANCELLED kwargs w =
      (Raise (TypeError (MultipleValues f "order")), w') ∧
    order_logs w' =
      (order_logs w ++ [mkOrderLog (pk (obj (mem w))) (now (env w))
                                   (state (obj (mem w))) CANCELLED kwargs])%list ∧
    row_state <$> orders w' !! pk (obj (mem w)) = Some CANCELLED.
Proof.
  refine (X21_order_argument_fails_after_commit CANCELLED {[ "order" := PyInt 7 ]}
            (world_of stored_order) (PyInt 7) _ _ _ _ _).
  - vm_compute. reflexivity.
  - right. left. reflexivity.
  - apply in_by_compute. vm_compute. reflexivity.
  - vm_compute. reflexivity.
  - vm_compute. reflexivity.
Defined.

(** ** The admin *)

(** X22: every button [operations] offers submits the value of a state
    that is a legal target for the order, labelled with the description
    of that state; an order offers no button exactly when it is
    [CANCELLED] or [REFUNDED]. *)
Theorem X22_offered_buttons_are_legal (o : Order) (v d : string) :
  ((v, d) ∈ operations o →
     ∃ t, State_call v = Return t ∧ t ∈ get_possible_next_states o ∧ d = desc t) ∧
  (operations o = [] ↔ state o = CANCELLED ∨ state o = REFUNDED).
Proof.
  split.
  - unfold operations. intros (t & [= -> ->] & Hin)%list_elem_of_fmap.
    exists t. split; [apply State_call_value|done].
  - unfold operations, get_possible_next_states. split.
    + intros H%map_eq_nil. revert H.
      destruct (state o); vm_compute; intros H; try discriminate H; auto.
    + intros [-> | ->]; vm_compute; reflexivity.
Qed.

Lemma X22_offered_buttons_are_legal_witness :
  ∃ t, State_call "cancelled" = Return t ∧
       t ∈ get_possible_next_states stored_order ∧ "Cancelled" = desc t.
Proof.
  apply (proj1 (X22_offered_buttons_are_legal stored_order "cancelled" "Cancelled")).
  apply in_by_compute. vm_compute. reflexivity.
Defined.

Lemma message_user_on_error_cases (e : Exception) (messages : list (list Piece)) :
  (∃ msg, e = ValueError msg ∧
          message_user_on_error e messages = (Return tt, (messages ++ [msg])%list)) ∨
  ((∀ msg, e ≠ ValueError msg) ∧ message_user_on_error e messages = (Raise e, messages)).
Proof. destruct e; [left; by eauto|right; by split..]. Qed.

(** X23: [response_change] never lets a [ValueError] out: whatever is
    posted, it either returns, having added at most one error message,
    or raises an exception that is not a [ValueError] and adds no
    message. *)
Theorem X23_response_change_catches_value_errors (h : Hooks) (new_state_ : option string)
    (loaded : Outcome PyVal) (messages : list (list Piece)) (w : World) :
  ∃ r messages' w',
    response_change h new_state_ loaded messages w = (r, messages', w') ∧
    (∀ msg, r ≠ Raise (ValueError msg)) ∧
    ( (r = Return tt ∧ (messages' = messages ∨ ∃ msg, messages' = (messages ++ [msg])%list))
    ∨ ((∃ x, r = Raise x) ∧ messages' = messages) ).
Proof.
  assert (Hok : ∀ w', ∃ (r : Outcome unit) (messages' : list (list Piece)) (w'' : World),
            ((Return tt : Outcome unit), messages, w') = (r, messages', w'') ∧
            (∀ msg, r ≠ Raise (ValueError msg)) ∧
            ( (r = Return tt ∧
               (messages' = messages ∨ ∃ msg, messages' = (messages ++ [msg])%list))
            ∨ ((∃ x, r = Raise x) ∧ messages' = messages) )).
  { intros w'. do 3 eexists. split; [done|]. split; [done|]. left. by eauto. }
  assert (Herr : ∀ e w', ∃ (r : Outcome unit) (messages' : list (list Piece)) (w'' : World),
            (message_user_on_error e messages, w') = (r, messages', w'') ∧
            (∀ msg, r ≠ Raise (ValueError msg)) ∧
            ( (r = Return tt ∧
               (messages' = messages ∨ ∃ msg, messages' = (messages ++ [msg])%list))
            ∨ ((∃ x, r = Raise x) ∧ messages' = messages) )).
  { intros e w'.
    destruct (message_user_on_error_cases e messages) as [(msg & -> & ->)|[Hne ->]].
    - do 3 eexists. split; [done|]. split; [done|]. left. by eauto.
    - do 3 eexists. split; [done|]. split; [intros msg [= Heq]; by apply (Hne msg)|]. right. by eauto. }
  unfold response_change.
  destruct new_state_ as [[|c v]|]; [apply Hok| |apply Hok].
  destruct (State_call _) as [t|e]; [|apply Herr].
  destruct loaded as [x|e]; [|apply Herr].
  destruct (unpack x) as [kwargs|e]; [|apply Herr].
  destruct (transition_state h t kwargs w) as [[[]|e] w']; [apply Hok|apply Herr].
Qed.

(** X24: posting a target that is no state value, or a state that is
    not a legal target, changes nothing and reports exactly one error
    message; a [TypeError] raised by the transition is not caught. *)
Theorem X24_response_change_on_bad_requests (h : Hooks) (c : ascii) (v : string)
    (loaded : Outcome PyVal) (messages : list (list Piece)) (w : World) :
  ((∃ x, State_call (String c v) = Raise x) →
     ∃ msg, response_change h (Some (String c v)) loaded messages w =
            (Return tt, (messages ++ [msg])%list, w)) ∧
  (∀ t d, State_call (String c v) = Return t → loaded = Return (PyDict d) →
     bind_positional "transition_state" ["self"; "new_state"] (list_to_map d) = None →
     t ∉ get_possible_next_states (obj (mem w)) →
     response_change h (Some (String c v)) loaded messages w =
       (Return tt,
        (messages ++ [[Lit "Can't transition from ";
                       Fmt (PyStr (value (state (obj (mem w)))));
                       Lit " to "; Fmt (PyStr (value t))]])%list, w)) ∧
  (∀ t d k w', State_call (String c v) = Return t → loaded = Return (PyDict d) →
     bind_positional "transition_state" ["self"; "new_state"] (list_to_map d) = None →
     transition_state h t (list_to_map d) w = (Raise (TypeError k), w') →
     response_change h (Some (String c v)) loaded messages w =
       (Raise (TypeError k), messages, w')).
Proof.
  unfold response_change. split; [|split].
  - intros [x Hx]. rewrite Hx. unfold State_call in Hx.
    destruct (find _ _); [done|]. injection Hx as <-. by eexists.
  - intros t d -> -> Hbind Hillegal. cbn [unpack].
    by rewrite (transition_state_illegal _ _ _ _ Hbind Hillegal).
  - intros t d k w' -> -> Hbind Hts. cbn [unpack]. by rewrite Hts.
Qed.

Lemma X24_response_change_on_bad_requests_witness :
  ∃ msg, response_change registered (Some "shipped") (Return (PyDict [])) []
           (world_of stored_order) =
         (Return tt, ([] ++ [msg])%list, world_of stored_order).
Proof.
  apply (proj1 (X24_response_change_on_bad_requests registered "s" "hipped"
                  (Return (PyDict [])) [] (world_of stored_order))).
  eexists. reflexivity.
Defined.

(** X25: in the admin, asking for [PROCESSING] with a payment method
    and a discount from 0 to 100 for an order whose price is a
    [Decimal] ends in a [TypeError] that [response_change] does not
    catch; no message is added, no row and no record is written. *)
Theorem X25_discount_request_escapes_admin (w : World) (d : Decimal) (n : Z)
    (messages : list (list Piece))
    (Hstate : state (obj (mem w)) = PENDING_PAYMENT)
    (Hprice : price (obj (mem w)) = NDecimal d)
    (Hrange : 0 ≤ n ≤ 100) :
  ∃ w',
    response_change registered (Some "processing")
      (Return (PyDict [("payment_method", PyStr "cash"); ("discount", PyInt n)]))
      messages w =
    (Raise (TypeError (UnsupportedOperand "*" "decimal.Decimal" "float")), messages, w') ∧
    orders w' = orders w ∧ order_logs w' = order_logs w.
Proof.
  destruct (discount_refused_for_decimal_price w d n Hstate Hprice Hrange)
    as (w' & Hts & Ho & Hl & _).
  exists w'. split; [|done].
  assert (Hmap : (list_to_map [("payment_method", PyStr "cash"); ("discount", PyInt n)]
                   : gmap string PyVal) = cash_discount n).
  { unfold cash_discount. cbn [list_to_map foldr curry fst snd].
    by rewrite insert_empty. }
  unfold response_change.
  change (State_call "processing") with (Return PROCESSING : Outcome State).
  cbn [unpack]. rewrite Hmap, Hts. done.
Qed.

Lemma X25_discount_request_escapes_admin_witness :
  ∃ w',
    response_change registered (Some "processing")
      (Return (PyDict [("payment_method", PyStr "cash"); ("discount", PyInt 10)]))
      [] (world_of stored_order) =
    (Raise (TypeError (UnsupportedOperand "*" "decimal.Decimal" "float")), [], w') ∧
    orders w' = orders (world_of stored_order) ∧
    order_logs w' = order_logs (world_of stored_order).
Proof.
  apply (X25_discount_request_escapes_admin (world_of stored_order)
           (mkDecimal 10000 (-2)) 10 []).
  - reflexivity.
  - reflexivity.
  - lia.
Defined.

Lemma registered_step_frame (new : State) (kwargs : gmap string PyVal) (w : World) :
  let w' := snd (transition_state registered new kwargs w) in
  pk (obj (mem w')) = pk (obj (mem w)) ∧
  order_logs w `prefix_of` order_logs w' ∧
  ∀ k, k ≠ pk (obj (mem w)) → orders w' !! k = orders w !! k.
Proof.
  destruct (registered_step new kwargs w) as (r & w' & -> & _ & Hcase). cbn [snd].
  destruct Hcase as [(x & _ & Ho & Hl & Hpk & _)
                    |(w1 & _ & _ & Hpk1 & _ & _ & Hobj & Hl & Ho)].
  - split; [done|]. split; [by rewrite Hl|]. intros k _. by rewrite Ho.
  - destruct (pre_save_fields (now (env w)) (set_state new (obj (mem w1))))
      as (Hpk2 & _).
    split; [by rewrite Hobj, Hpk2|]. split; [rewrite Hl; by apply prefix_app_r|].
    intros k Hk. rewrite Ho. by rewrite lookup_insert_ne.
Qed.

(** X26: through any series of transition attempts with the registered
    hooks the log only grows at its end (no record is changed or
    removed), the rows of other orders are never touched, and the
    instance keeps its key. *)
Theorem X26_log_is_append_only (l : list (State * gmap string PyVal)) (w : World) :
  pk (obj (mem (attempts l w))) = pk (obj (mem w)) ∧
  order_logs w `prefix_of` order_logs (attempts l w) ∧
  ∀ k, k ≠ pk (obj (mem w)) → orders (attempts l w) !! k = orders w !! k.
Proof.
  revert w. induction l as [|[target kwargs] l IH]; intros w; [done|].
  cbn [attempts].
  destruct (registered_step_frame target kwargs w) as (Hpk & Hpre & Hrows).
  destruct (IH (snd (transition_state registered target kwargs w))) as (Hpk' & Hpre' & Hrows').
  split; [by rewrite Hpk', Hpk|]. split; [by etrans|].
  intros k Hk. rewrite Hrows' by (by rewrite Hpk). by apply Hrows.
Qed.
